(** * d1-rest: the REST-to-SQL gateway, embedded and verified

    A shallow embedding of [rest.ts] (the four CRUD handlers, the identifier
    sanitizer and the pagination arithmetic) and of [helpers/index.ts]
    (the read-direction hydration).

    Modelling conventions.
    - A JavaScript string is a [string]: a sequence of 8-bit characters, read
      as the code units 0..255.
    - A JavaScript number is a [number]: [NaN] or an integer.  The integers
      stand for the doubles that hold them exactly (magnitude below 2^53),
      where [+], [-], [*] on doubles are exact; [-0] is not told apart
      from [0]; fractions and infinities are not represented.
    - A JavaScript value is a [jsval]; an object is an association list in
      property order.
    - [c.env.DB] is a record of functions from statement text and bound
      parameters to the engine's answer or the message of the error it
      raises; [c.json(body, status)] is a [Response]. *)

From Stdlib Require Import Bool Arith ZArith NArith List Ascii String Lia.
From Stdlib Require Import DecimalString DecimalN DecimalPos DecimalFacts.
Import ListNotations.

Set Implicit Arguments.

Local Open Scope string_scope.
Local Open Scope Z_scope.

(** ** Characters and strings *)

Module Chars.

Definition code (c : ascii) : N := N_of_ascii c.

Definition in_range (lo hi : N) (c : ascii) : bool :=
  (N.leb lo (code c) && N.leb (code c) hi)%bool.

Definition is_digit (c : ascii) : bool := in_range 48 57 c.
Definition is_upper (c : ascii) : bool := in_range 65 90 c.
Definition is_lower (c : ascii) : bool := in_range 97 122 c.

(** The complement of the class [^a-zA-Z0-9_] of [sanitizeIdentifier]. *)
Definition is_ident_char (c : ascii) : bool :=
  (is_lower c || is_upper c || is_digit c || Ascii.eqb c "_")%bool.

(** [toUpperCase] on one code unit: the ASCII letters a-z, and the Latin-1
    letters that have an upper-case form in the same range.  A code unit
    whose upper-case form lies outside the range is kept; none of them
    upper-cases to a letter of [DESC], the only text the handlers compare
    an upper-cased string with. *)
Definition upper_char (c : ascii) : ascii :=
  if is_lower c then ascii_of_N (code c - 32)
  else if (in_range 224 254 c && negb (N.eqb (code c) 247))%bool
       then ascii_of_N (code c - 32)
  else c.

Fixpoint all_chars (p : ascii -> bool) (s : string) : bool :=
  match s with
  | EmptyString => true
  | String c r => (p c && all_chars p r)%bool
  end.

Fixpoint filter_chars (p : ascii -> bool) (s : string) : string :=
  match s with
  | EmptyString => EmptyString
  | String c r => if p c then String c (filter_chars p r) else filter_chars p r
  end.

Fixpoint map_chars (f : ascii -> ascii) (s : string) : string :=
  match s with
  | EmptyString => EmptyString
  | String c r => String (f c) (map_chars f r)
  end.

Definition toUpperCase (s : string) : string := map_chars upper_char s.

(** [Array.prototype.join]. *)
Fixpoint join (sep : string) (l : list string) : string :=
  match l with
  | [] => EmptyString
  | [x] => x
  | x :: r => x ++ sep ++ join sep r
  end.

(** What follows the prefix [p] in [s], when [s] starts with it. *)
Fixpoint strip_prefix (p s : string) : option string :=
  match p, s with
  | EmptyString, _ => Some s
  | String a p', String b s' =>
      if Ascii.eqb a b then strip_prefix p' s' else None
  | String _ _, EmptyString => None
  end.

(** A string is truthy when it is not empty. *)
Definition nonempty (s : string) : bool :=
  match s with EmptyString => false | _ => true end.

End Chars.
Import Chars.

(** ** Numbers *)

Inductive number : Type :=
| NaN : number
| Num (z : Z) : number.

Module Number.

Definition sub (a b : number) : number :=
  match a, b with Num x, Num y => Num (x - y) | _, _ => NaN end.

Definition mul (a b : number) : number :=
  match a, b with Num x, Num y => Num (x * y) | _, _ => NaN end.

(** [Math.max(a, b)]: [NaN] as soon as one argument is. *)
Definition max (a b : number) : number :=
  match a, b with Num x, Num y => Num (Z.max x y) | _, _ => NaN end.

(** [a > b]: false as soon as one side is [NaN]. *)
Definition gtb (a b : number) : bool :=
  match a, b with Num x, Num y => Z.ltb y x | _, _ => false end.

(** [a === b] on numbers: [NaN] equals nothing. *)
Definition eqb (a b : number) : bool :=
  match a, b with Num x, Num y => Z.eqb x y | _, _ => false end.

(** [ToBoolean]: [NaN] and zero are falsy. *)
Definition truthy (a : number) : bool :=
  match a with NaN => false | Num z => negb (Z.eqb z 0) end.

(** [Math.ceil(a / b)] for a positive divisor [b]: the quotient of two
    integers rounded up.  Outside [b > 0] (division by zero gives an
    infinity or [NaN], which the model does not hold) the result is [NaN];
    the handlers divide under [limit > 0] only. *)
Definition ceil_div (a b : number) : number :=
  match a, b with
  | Num x, Num y => if Z.ltb 0 y then Num (- ((- x) / y)) else NaN
  | _, _ => NaN
  end.

(** The decimal digits of a natural number and of an integer, as
    [Number.prototype.toString] prints them. *)
Definition print_nat (n : N) : string :=
  NilZero.string_of_uint (N.to_uint n).

Definition print_int (z : Z) : string :=
  if Z.ltb z 0 then String "-" (print_nat (Z.to_N (- z)))
  else print_nat (Z.to_N z).

End Number.

(** ** [parseInt(string)] with no radix argument *)

Module ParseInt.

(** Leading white space that [parseInt] skips (code units up to 255). *)
Definition is_white (c : ascii) : bool :=
  (in_range 9 13 c || N.eqb (code c) 32 || N.eqb (code c) 160)%bool.

Fixpoint trim_start (s : string) : string :=
  match s with
  | String c r => if is_white c then trim_start r else s
  | EmptyString => EmptyString
  end.

Definition digit_value (radix : Z) (c : ascii) : option Z :=
  let v :=
    if is_digit c then Some (Z.of_N (code c) - 48)
    else if is_lower c then Some (Z.of_N (code c) - 97 + 10)
    else if is_upper c then Some (Z.of_N (code c) - 65 + 10)
    else None in
  match v with
  | Some d => if Z.ltb d radix then Some d else None
  | None => None
  end.

(** The value of the longest prefix of radix digits; [None] when the prefix
    is empty. *)
Fixpoint digits (radix : Z) (acc : option Z) (s : string) : option Z :=
  match s with
  | EmptyString => acc
  | String c r =>
      match digit_value radix c with
      | Some d =>
          digits radix
            (Some (match acc with Some a => a * radix + d | None => d end)) r
      | None => acc
      end
  end.

Definition strip_sign (s : string) : Z * string :=
  match s with
  | String "-" r => (-1, r)
  | String "+" r => (1, r)
  | _ => (1, s)
  end.

Definition strip_hex (s : string) : Z * string :=
  match s with
  | String "0" (String "x" r) => (16, r)
  | String "0" (String "X" r) => (16, r)
  | _ => (10, s)
  end.

Definition parseInt (s : string) : number :=
  let (sign, s1) := strip_sign (trim_start s) in
  let (radix, s2) := strip_hex s1 in
  match digits radix None s2 with
  | Some m => Num (sign * m)
  | None => NaN
  end.

End ParseInt.
Import ParseInt.

(** ** Values *)

#[local] Unset Elimination Schemes.

Inductive jsval : Type :=
| JUndefined : jsval
| JNull : jsval
| JBool (b : bool) : jsval
| JNum (n : number) : jsval
| JStr (s : string) : jsval
| JArr (items : list jsval) : jsval
| JObj (props : list (string * jsval)) : jsval
| JFun (name : string) : jsval.

#[local] Set Elimination Schemes.

Definition JInt (z : Z) : jsval := JNum (Num z).

Section JsvalInduction.

Variable P : jsval -> Prop.
Hypothesis Hundef : P JUndefined.
Hypothesis Hnull : P JNull.
Hypothesis Hbool : forall b, P (JBool b).
Hypothesis Hnum : forall n, P (JNum n).
Hypothesis Hstr : forall s, P (JStr s).
Hypothesis Harr : forall l, Forall P l -> P (JArr l).
Hypothesis Hobj : forall l, Forall (fun kv => P (snd kv)) l -> P (JObj l).
Hypothesis Hfun : forall f, P (JFun f).

Fixpoint jsval_nested_ind (v : jsval) : P v :=
  match v with
  | JUndefined => Hundef
  | JNull => Hnull
  | JBool b => Hbool b
  | JNum n => Hnum n
  | JStr s => Hstr s
  | JArr l =>
      Harr ((fix go (l : list jsval) : Forall P l :=
               match l with
               | [] => Forall_nil _
               | x :: r => Forall_cons _ (jsval_nested_ind x) (go r)
               end) l)
  | JObj l =>
      Hobj ((fix go (l : list (string * jsval))
               : Forall (fun kv => P (snd kv)) l :=
               match l with
               | [] => Forall_nil _
               | x :: r => Forall_cons _ (jsval_nested_ind (snd x)) (go r)
               end) l)
  | JFun f => Hfun f
  end.

End JsvalInduction.

Module Js.

(** [typeof v]. *)
Definition typeof (v : jsval) : string :=
  match v with
  | JUndefined => "undefined"
  | JNull | JArr _ | JObj _ => "object"
  | JBool _ => "boolean"
  | JNum _ => "number"
  | JStr _ => "string"
  | JFun _ => "function"
  end.

(** [ToBoolean(v)]. *)
Definition truthy (v : jsval) : bool :=
  match v with
  | JUndefined | JNull => false
  | JBool b => b
  | JNum n => Number.truthy n
  | JStr s => nonempty s
  | JArr _ | JObj _ | JFun _ => true
  end.

Definition isArray (v : jsval) : bool :=
  match v with JArr _ => true | _ => false end.

(** [a || b]. *)
Definition or (a b : jsval) : jsval := if truthy a then a else b.

Fixpoint assoc (k : string) (l : list (string * jsval)) : option jsval :=
  match l with
  | [] => None
  | (k', v) :: r => if String.eqb k k' then Some v else assoc k r
  end.

(** The function-valued properties every plain object inherits from
    [Object.prototype]. *)
Definition object_prototype_methods : list string :=
  [ "constructor"; "hasOwnProperty"; "isPrototypeOf"; "propertyIsEnumerable";
    "toLocaleString"; "toString"; "valueOf"; "__defineGetter__";
    "__defineSetter__"; "__lookupGetter__"; "__lookupSetter__" ].

Definition mem (k : string) (l : list string) : bool :=
  existsb (String.eqb k) l.

(** [data[k]] on a plain object: an own property first, then
    [Object.prototype]: [__proto__] reads the prototype itself (an object
    with no enumerable property), a method name reads a function. *)
Definition get (props : list (string * jsval)) (k : string) : jsval :=
  match assoc k props with
  | Some v => v
  | None =>
      if String.eqb k "__proto__" then JObj []
      else if mem k object_prototype_methods then JFun k
      else JUndefined
  end.

(** [Object.keys(data)] on a plain object. *)
Definition keys (props : list (string * jsval)) : list string :=
  map fst props.

(** [CreateDataProperty] on an object under construction: a repeated key
    keeps its place and takes the later value. *)
Fixpoint set_prop (k : string) (v : jsval) (o : list (string * jsval))
  : list (string * jsval) :=
  match o with
  | [] => [(k, v)]
  | (k', v') :: r =>
      if String.eqb k k' then (k, v) :: r else (k', v') :: set_prop k v r
  end.

(** [Object.fromEntries(entries)]. *)
Definition fromEntries (entries : list (string * jsval)) : jsval :=
  JObj (fold_left (fun o kv => set_prop (fst kv) (snd kv) o) entries []).

Fixpoint indexed (i : N) (l : list jsval) : list (string * jsval) :=
  match l with
  | [] => []
  | x :: r => (Number.print_nat i, x) :: indexed (N.succ i) r
  end.

Fixpoint chars_of (s : string) : list jsval :=
  match s with
  | EmptyString => []
  | String c r => JStr (String c EmptyString) :: chars_of r
  end.

(** [Object.entries(v)] for a value that is neither [null] nor [undefined]:
    the properties of an object, the indices of an array or of a string,
    nothing for the other values. *)
Definition entries (v : jsval) : list (string * jsval) :=
  match v with
  | JObj props => props
  | JArr l => indexed 0 l
  | JStr s => indexed 0 (chars_of s)
  | _ => []
  end.

(** [s.includes(sub)]. *)
Fixpoint includes (s sub : string) : bool :=
  (String.prefix sub s ||
   match s with
   | EmptyString => false
   | String _ r => includes r sub
   end)%bool.

End Js.

(** ** [JSON.stringify] and [JSON.parse] *)

Module JSON.

Definition dquote : ascii := "034".
Definition backslash : ascii := "092".

Definition hex_char (n : N) : ascii :=
  if N.ltb n 10 then ascii_of_N (48 + n) else ascii_of_N (87 + n).

(** [QuoteJSONString], one code unit. *)
Definition escape_char (c : ascii) : string :=
  let n := code c in
  if N.eqb n 34 then String backslash (String dquote EmptyString)
  else if N.eqb n 92 then String backslash (String backslash EmptyString)
  else if N.eqb n 8 then String backslash "b"
  else if N.eqb n 9 then String backslash "t"
  else if N.eqb n 10 then String backslash "n"
  else if N.eqb n 12 then String backslash "f"
  else if N.eqb n 13 then String backslash "r"
  else if N.ltb n 32 then
    String backslash
      (String "u" (String "0" (String "0"
         (String (hex_char (n / 16)) (String (hex_char (n mod 16)) EmptyString)))))
  else String c EmptyString.

Fixpoint escape (s : string) : string :=
  match s with
  | EmptyString => EmptyString
  | String c r => escape_char c ++ escape r
  end.

Definition quote (s : string) : string :=
  String dquote (escape s ++ String dquote EmptyString).

(** The text of a value, [None] where [JSON.stringify] returns [undefined]. *)
Fixpoint text (v : jsval) : option string :=
  match v with
  | JUndefined | JFun _ => None
  | JNull => Some "null"
  | JBool true => Some "true"
  | JBool false => Some "false"
  | JNum NaN => Some "null"
  | JNum (Num z) => Some (Number.print_int z)
  | JStr s => Some (quote s)
  | JArr l =>
      Some ("[" ++ join ","
              (map (fun x => match text x with Some t => t | None => "null" end) l)
            ++ "]")
  | JObj l =>
      Some ("{" ++ join ","
              (flat_map (fun kv : string * jsval =>
                 let (k, x) := kv in
                 match text x with
                 | Some t => [quote k ++ ":" ++ t]
                 | None => []
                 end) l)
            ++ "}")
  end.

Definition stringify (v : jsval) : jsval :=
  match text v with Some t => JStr t | None => JUndefined end.

(** *** Parsing *)

Definition is_ws (c : ascii) : bool :=
  let n := code c in
  (N.eqb n 32 || N.eqb n 9 || N.eqb n 10 || N.eqb n 13)%bool.

Fixpoint skip_ws (s : string) : string :=
  match s with
  | String c r => if is_ws c then skip_ws r else s
  | EmptyString => EmptyString
  end.

Definition hex_value (c : ascii) : option N :=
  if is_digit c then Some (code c - 48)%N
  else if in_range 97 102 c then Some (code c - 87)%N
  else if in_range 65 70 c then Some (code c - 55)%N
  else None.

Definition hex4 (a b c d : ascii) : option N :=
  match hex_value a, hex_value b, hex_value c, hex_value d with
  | Some x, Some y, Some z, Some w => Some (((x * 16 + y) * 16 + z) * 16 + w)%N
  | _, _, _, _ => None
  end.

Definition simple_escape (e : ascii) : option ascii :=
  let n := code e in
  if N.eqb n 34 then Some dquote
  else if N.eqb n 92 then Some backslash
  else if N.eqb n 47 then Some "/"%char
  else if N.eqb n 98 then Some "008"%char
  else if N.eqb n 102 then Some "012"%char
  else if N.eqb n 110 then Some "010"%char
  else if N.eqb n 114 then Some "013"%char
  else if N.eqb n 116 then Some "009"%char
  else None.

Definition push (c : ascii) (r : option (string * string))
  : option (string * string) :=
  match r with
  | Some (t, rest) => Some (String c t, rest)
  | None => None
  end.

(** The characters of a string literal after its opening quote, and what
    follows the closing quote.  An escape [\uXXXX] above 255 names a code
    unit the model's strings do not have: no value. *)
Fixpoint string_body (s : string) : option (string * string) :=
  match s with
  | EmptyString => None
  | String c r =>
      if Ascii.eqb c dquote then Some (EmptyString, r)
      else if Ascii.eqb c backslash then
        match r with
        | EmptyString => None
        | String e r1 =>
            if Ascii.eqb e "u" then
              match r1 with
              | String h1 (String h2 (String h3 (String h4 r2))) =>
                  match hex4 h1 h2 h3 h4 with
                  | Some n =>
                      if N.ltb n 256 then push (ascii_of_N n) (string_body r2)
                      else None
                  | None => None
                  end
              | _ => None
              end
            else
              match simple_escape e with
              | Some ch => push ch (string_body r1)
              | None => None
              end
        end
      else if N.ltb (code c) 32 then None
      else push c (string_body r)
  end.

Fixpoint span_digits (s : string) : string * string :=
  match s with
  | String c r =>
      if is_digit c then let (d, rest) := span_digits r in (String c d, rest)
      else (EmptyString, s)
  | EmptyString => (EmptyString, EmptyString)
  end.

Definition starts_fraction (s : string) : bool :=
  match s with
  | String c _ => (Ascii.eqb c "." || Ascii.eqb c "e" || Ascii.eqb c "E")%bool
  | EmptyString => false
  end.

(** The digits of a number token, after its sign.  A token with a
    fraction or an exponent denotes a number the model does not hold: no
    value. *)
Definition digits_token (sign : Z) (s : string) : option (jsval * string) :=
  let (ds, rest) := span_digits s in
  match ds with
  | EmptyString => None
  | String d more =>
      if (Ascii.eqb d "0" && nonempty more)%bool then None
      else if starts_fraction rest then None
      else
        match NilZero.uint_of_string ds with
        | Some u => Some (JInt (sign * Z.of_N (N.of_uint u)), rest)
        | None => None
        end
  end.

Definition number_token (s : string) : option (jsval * string) :=
  match s with
  | String c r =>
      if Ascii.eqb c "-" then digits_token (-1) r else digits_token 1 s
  | EmptyString => None
  end.

Definition first_is (c : ascii) (s : string) : bool :=
  match s with
  | String d _ => Ascii.eqb d c
  | EmptyString => false
  end.

Definition rest_of (s : string) : string :=
  match s with
  | String _ r => r
  | EmptyString => EmptyString
  end.

(** One value, given the parsers of the elements of an array and of the
    members of an object that start after the opening bracket. *)
Definition value_step
  (elements : string -> option (list jsval * string))
  (members : string -> option (list (string * jsval) * string))
  (s : string) : option (jsval * string) :=
  match skip_ws s with
  | EmptyString => None
  | String c r =>
      if Ascii.eqb c "n" then
        option_map (pair JNull) (strip_prefix "ull" r)
      else if Ascii.eqb c "t" then
        option_map (pair (JBool true)) (strip_prefix "rue" r)
      else if Ascii.eqb c "f" then
        option_map (pair (JBool false)) (strip_prefix "alse" r)
      else if Ascii.eqb c dquote then
        match string_body r with
        | Some (t, rest) => Some (JStr t, rest)
        | None => None
        end
      else if Ascii.eqb c "[" then
        if first_is "]" (skip_ws r) then Some (JArr [], rest_of (skip_ws r))
        else
          match elements r with
          | Some (l, rest) => Some (JArr l, rest)
          | None => None
          end
      else if Ascii.eqb c "{" then
        if first_is "}" (skip_ws r) then Some (JObj [], rest_of (skip_ws r))
        else
          match members r with
          | Some (l, rest) => Some (Js.fromEntries l, rest)
          | None => None
          end
      else number_token (String c r)
  end.

(** The elements of an array up to its closing bracket. *)
Definition elements_step
  (value : string -> option (jsval * string))
  (elements : string -> option (list jsval * string))
  (s : string) : option (list jsval * string) :=
  match value s with
  | Some (v, r) =>
      if first_is "," (skip_ws r) then
        match elements (rest_of (skip_ws r)) with
        | Some (l, rest) => Some (v :: l, rest)
        | None => None
        end
      else if first_is "]" (skip_ws r) then Some ([v], rest_of (skip_ws r))
      else None
  | None => None
  end.

(** The members of an object up to its closing brace. *)
Definition members_step
  (value : string -> option (jsval * string))
  (members : string -> option (list (string * jsval) * string))
  (s : string) : option (list (string * jsval) * string) :=
  if first_is dquote (skip_ws s) then
    match string_body (rest_of (skip_ws s)) with
    | Some (k, r1) =>
        if first_is ":" (skip_ws r1) then
          match value (rest_of (skip_ws r1)) with
          | Some (v, r3) =>
              if first_is "," (skip_ws r3) then
                match members (rest_of (skip_ws r3)) with
                | Some (l, rest) => Some ((k, v) :: l, rest)
                | None => None
                end
              else if first_is "}" (skip_ws r3)
              then Some ([(k, v)], rest_of (skip_ws r3))
              else None
          | None => None
          end
        else None
    | None => None
    end
  else None.

(** The recursive descent, bounded by [n] nested calls. *)
Fixpoint value (n : nat) (s : string) {struct n} : option (jsval * string) :=
  match n with
  | O => None
  | S n' => value_step (elements n') (members n') s
  end
with elements (n : nat) (s : string) {struct n}
  : option (list jsval * string) :=
  match n with
  | O => None
  | S n' => elements_step (value n') (elements n') s
  end
with members (n : nat) (s : string) {struct n}
  : option (list (string * jsval) * string) :=
  match n with
  | O => None
  | S n' => members_step (value n') (members n') s
  end.

(** [JSON.parse(s)]; [None] when it throws. *)
Definition parse (s : string) : option jsval :=
  match value (S (String.length s)) s with
  | Some (v, rest) =>
      match skip_ws rest with
      | EmptyString => Some v
      | _ => None
      end
  | None => None
  end.

End JSON.

(** ** [helpers/index.ts]: hydration of stored values *)

Module Helpers.

Definition starts_structure (s : string) : bool :=
  match s with
  | String c _ => (Ascii.eqb c "{" || Ascii.eqb c "[")%bool
  | EmptyString => false
  end.

Definition is_number (v : jsval) (z : Z) : bool :=
  match v with JNum n => Number.eqb n (Num z) | _ => false end.

Definition hydrateValue (value : jsval) : jsval :=
  match value with
  | JNull | JUndefined => value
  | _ =>
      if is_number value 0 then JBool false
      else if is_number value 1 then JBool true
      else
        match value with
        | JStr s =>
            if starts_structure s then
              match JSON.parse s with
              | Some parsed => parsed
              | None => value
              end
            else value
        | _ => value
        end
  end.

Definition hydrateRow (row : jsval) : jsval :=
  if negb (Js.truthy row) then row
  else
    Js.fromEntries
      (map (fun kv : string * jsval => (fst kv, hydrateValue (snd kv)))
         (Js.entries row)).

End Helpers.
Import Helpers.

(** ** The storage engine binding [c.env.DB] *)

(** [result.meta] of a write. *)
Record run_meta : Type := { changes : Z; last_row_id : Z }.

(** What a prepared statement answers: [inl message] when it throws an
    error with that message.  [d1_first] is read at the type the source
    gives it, [first<{ total: number }>()]: the [total] of the first row, or
    [None] for [null]. *)
Record D1 : Type := {
  d1_all : string -> list jsval -> string + list jsval;
  d1_first : string -> list jsval -> string + option number;
  d1_run : string -> list jsval -> string + run_meta
}.

Record Response : Type := { body : jsval; status : Z }.

(** [c.json(body)] and [c.json(body, status)]. *)
Definition json (b : jsval) : Response := {| body := b; status := 200 |}.
Definition json_status (b : jsval) (st : Z) : Response :=
  {| body := b; status := st |}.

(** ** [rest.ts]: the handlers *)

Module Rest.

(** [identifier.replace(/[^a-zA-Z0-9_]/g, "")]. *)
Definition sanitizeIdentifier (identifier : string) : string :=
  filter_chars is_ident_char identifier.

Definition sanitizeKeyword (identifier : string) : string :=
  "`" ++ sanitizeIdentifier identifier ++ "`".

(** [tableName === "quizzes" ? "slug" : "id"]. *)
Definition idColumn (tableName : string) : string :=
  if String.eqb tableName "quizzes" then "slug" else "id".

(** [new URL(c.req.url).searchParams]: the decoded pairs, in order. *)
Definition searchParams : Type := list (string * string).

(** [searchParams.get(key)]: the first value of the key, or [null]. *)
Fixpoint sp_get (key : string) (sp : searchParams) : option string :=
  match sp with
  | [] => None
  | (k, v) :: r => if String.eqb k key then Some v else sp_get key r
  end.

(** [x || fallback] for [x] a string or [null]. *)
Definition or_else (x : option string) (fallback : string) : string :=
  match x with
  | Some s => if nonempty s then s else fallback
  | None => fallback
  end.

(** [if (id)] for [id] a string or [undefined]. *)
Definition given (id : option string) : bool :=
  match id with Some s => nonempty s | None => false end.

Definition id_text (id : option string) : string :=
  match id with Some s => s | None => EmptyString end.

Definition control_keys : list string := ["sort_by"; "order"; "limit"; "page"].

(** The pairs of the query string that the loop turns into conditions. *)
Definition filters (sp : searchParams) : searchParams :=
  filter (fun kv => negb (Js.mem (fst kv) control_keys)) sp.

Definition conditions (tableName : string) (id : option string)
  (sp : searchParams) : list string :=
  ((if given id then [(idColumn tableName ++ " = ?")%string] else []) ++
   map (fun kv => (sanitizeIdentifier (fst kv) ++ " = ?")%string)
     (filters sp))%list.

(** [params] when the loop over the query string ends. *)
Definition filter_params (id : option string) (sp : searchParams)
  : list jsval :=
  ((if given id then [JStr (id_text id)] else []) ++
   map (fun kv => JStr (snd kv)) (filters sp))%list.

Definition whereClause (tableName : string) (id : option string)
  (sp : searchParams) : string :=
  match conditions tableName id sp with
  | [] => EmptyString
  | cs => " WHERE " ++ join " AND " cs
  end.

Definition limit_of (sp : searchParams) : number :=
  parseInt (or_else (sp_get "limit" sp) "0").

Definition page_of (sp : searchParams) : number :=
  Number.max (Num 1) (parseInt (or_else (sp_get "page" sp) "1")).

Definition offset_of (sp : searchParams) : number :=
  Number.mul (Number.sub (page_of sp) (Num 1)) (limit_of sp).

Definition sortBy_of (tableName : string) (sp : searchParams) : string :=
  or_else (sp_get "sort_by" sp) (idColumn tableName).

Definition order_of (sp : searchParams) : string :=
  match sp_get "order" sp with
  | Some o => if String.eqb (toUpperCase o) "DESC" then "DESC" else "ASC"
  | None => "ASC"
  end.

Definition paginated (sp : searchParams) : bool :=
  Number.gtb (limit_of sp) (Num 0).

(** [query] as it is prepared. *)
Definition select_query (tableName : string) (id : option string)
  (sp : searchParams) : string :=
  "SELECT * FROM " ++ sanitizeKeyword tableName ++ whereClause tableName id sp
  ++ " ORDER BY " ++ sanitizeIdentifier (sortBy_of tableName sp) ++ " "
  ++ order_of sp
  ++ (if paginated sp then " LIMIT ? OFFSET ?" else EmptyString).

(** [params] as they are bound to [query]. *)
Definition select_params (id : option string) (sp : searchParams)
  : list jsval :=
  (filter_params id sp ++
   (if paginated sp then [JNum (limit_of sp); JNum (offset_of sp)] else []))%list.

Definition countQuery (tableName : string) (id : option string)
  (sp : searchParams) : string :=
  "SELECT COUNT(*) as total FROM " ++ sanitizeKeyword tableName
  ++ whereClause tableName id sp.

(** [params.slice(0, -2)]. *)
Definition drop_last2 (l : list jsval) : list jsval :=
  firstn (List.length l - 2) l.

Definition countParams (id : option string) (sp : searchParams)
  : list jsval :=
  if paginated sp then drop_last2 (select_params id sp)
  else select_params id sp.

(** The message of the 409 answer, with its two code units 225. *)
Definition conflict_message : string :=
  "Este Slug j" ++ String "225" (" est" ++ String "225" " em uso.").

Definition failure (message : string) (st : Z) : Response :=
  json_status (JObj [("success", JBool false); ("error", JStr message)]) st.

Definition pagination (sp : searchParams) (total : number) : jsval :=
  let limit := limit_of sp in
  JObj [ ("total_items", JNum total);
         ("total_pages",
          JNum (if Number.gtb limit (Num 0) then Number.ceil_div total limit
                else Num 1));
         ("current_page", JNum (page_of sp));
         ("limit", JNum (if Number.truthy limit then limit else total)) ].

Definition handleGet (db : D1) (tableName : string) (id : option string)
  (sp : searchParams) : Response :=
  match d1_all db (select_query tableName id sp) (select_params id sp) with
  | inl message => failure message 500
  | inr results =>
      if given id then
        match results with
        | [] => failure "Not Found" 404
        | row :: _ =>
            json (JObj [("success", JBool true); ("result", hydrateRow row)])
        end
      else
        match d1_first db (countQuery tableName id sp) (countParams id sp) with
        | inl message => failure message 500
        | inr answer =>
            let total := match answer with Some t => t | None => Num 0 end in
            json (JObj [ ("success", JBool true);
                         ("results", JArr (map hydrateRow results));
                         ("pagination", pagination sp total) ])
        end
  end.

(** [!data || typeof data !== "object" || Array.isArray(data)]. *)
Definition invalid_payload (data : jsval) : bool :=
  (negb (Js.truthy data) || negb (String.eqb (Js.typeof data) "object")
   || Js.isArray data)%bool.

Definition null_or_undefined (v : jsval) : bool :=
  match v with JNull | JUndefined => true | _ => false end.

Definition is_null (v : jsval) : bool :=
  match v with JNull => true | _ => false end.

Definition bool_to_int (v : jsval) : jsval :=
  if Js.truthy v then JInt 1 else JInt 0.

(** The body of [columns.map((col) => ...)] in [handlePost], on
    [value = data[col]]. *)
Definition post_param (value : jsval) : jsval :=
  if (negb (is_null value) && String.eqb (Js.typeof value) "object")%bool
  then JSON.stringify value
  else if String.eqb (Js.typeof value) "boolean" then bool_to_int value
  else if null_or_undefined value then JNull
  else value.

(** The same in [handleUpdate]. *)
Definition update_param (value : jsval) : jsval :=
  if (negb (is_null value) && String.eqb (Js.typeof value) "object")%bool
  then JSON.stringify value
  else if String.eqb (Js.typeof value) "boolean" then bool_to_int value
  else value.

Definition columns_of (props : list (string * jsval)) : list string :=
  map sanitizeIdentifier (Js.keys props).

Definition post_params (props : list (string * jsval)) : list jsval :=
  map (fun col => post_param (Js.get props col)) (columns_of props).

Definition update_params (props : list (string * jsval)) : list jsval :=
  map (fun col => update_param (Js.get props col)) (columns_of props).

Definition insert_query (tableName : string) (props : list (string * jsval))
  : string :=
  "INSERT INTO " ++ sanitizeKeyword tableName ++ " ("
  ++ join ", " (columns_of props) ++ ") VALUES ("
  ++ join ", " (map (fun _ => "?") (columns_of props)) ++ ")".

(** [data] is what [c.req.json()] resolved to.  A payload that passes the
    test is an object (lemma [invalid_payload_spec]), so the last branch of
    the match is never taken. *)
Definition handlePost (db : D1) (tableName : string) (data : jsval)
  : Response :=
  if invalid_payload data then failure "Invalid data format" 400
  else
    match data with
    | JObj props =>
        match d1_run db (insert_query tableName props) (post_params props) with
        | inr meta =>
            json_status
              (JObj [ ("success", JBool true);
                      ("message", JStr (tableName ++ " created successfully"));
                      ("id", Js.or (Js.get props "slug")
                               (JInt (last_row_id meta))) ])
              201
        | inl message =>
            if Js.includes message "UNIQUE constraint failed"
            then failure conflict_message 409
            else failure message 500
        end
    | _ => failure "Invalid data format" 400
    end.

Definition update_query (tableName : string) (props : list (string * jsval))
  : string :=
  "UPDATE " ++ sanitizeKeyword tableName ++ " SET "
  ++ join ", " (map (fun col => col ++ " = ?") (columns_of props))
  ++ " WHERE " ++ idColumn tableName ++ " = ?".

Definition handleUpdate (db : D1) (tableName : string) (id : string)
  (data : jsval) : Response :=
  if invalid_payload data
  then json_status (JObj [("error", JStr "Invalid data format")]) 400
  else
    match data with
    | JObj props =>
        match d1_run db (update_query tableName props)
                (update_params props ++ [JStr id])%list with
        | inr _ =>
            json (JObj [ ("success", JBool true);
                         ("message", JStr "Resource updated successfully");
                         ("data", data) ])
        | inl message => failure message 500
        end
    | _ => json_status (JObj [("error", JStr "Invalid data format")]) 400
    end.

Definition delete_query (tableName : string) : string :=
  "DELETE FROM " ++ sanitizeKeyword tableName ++ " WHERE "
  ++ idColumn tableName ++ " = ?".

Definition handleDelete (db : D1) (tableName : string) (id : string)
  : Response :=
  match d1_run db (delete_query tableName) [JStr id] with
  | inr meta =>
      if Z.eqb (changes meta) 0
      then json_status (JObj [("error", JStr "Record not found")]) 404
      else json (JObj [ ("success", JBool true);
                        ("message", JStr "Resource deleted successfully") ])
  | inl message => failure message 500
  end.

(** [url.pathname.split("/").filter(Boolean)]. *)
Fixpoint split_path (s : string) (segment : string) : list string :=
  match s with
  | EmptyString => if nonempty segment then [segment] else []
  | String c r =>
      if Ascii.eqb c "/" then
        ((if nonempty segment then [segment] else []) ++
         split_path r EmptyString)%list
      else split_path r (segment ++ String c EmptyString)
  end.

Definition plain_error (message : string) (st : Z) : Response :=
  json_status (JObj [("error", JStr message)]) st.

Definition handleRest (db : D1) (method pathname : string)
  (sp : searchParams) (data : jsval) : Response :=
  match split_path pathname EmptyString with
  | _ :: tableName :: rest =>
      let id := nth_error rest 0 in
      if String.eqb method "GET" then handleGet db tableName id sp
      else if String.eqb method "POST" then handlePost db tableName data
      else if (String.eqb method "PUT" || String.eqb method "PATCH")%bool then
        if given id then handleUpdate db tableName (id_text id) data
        else plain_error "ID is required for updates" 400
      else if String.eqb method "DELETE" then
        if given id then handleDelete db tableName (id_text id)
        else plain_error "ID is required for deletion" 400
      else plain_error "Method not allowed" 405
  | _ =>
      plain_error "Invalid path. Expected format: /rest/{tableName}/{id?}" 400
  end.

End Rest.

(** ** A reference engine for the statements the handlers prepare

    The engine is outside the repository.  This is a reference semantics
    for the statement shapes of [handleGet] and [handleDelete], to run the
    handlers on ordinary requests: the text is parsed back, the [WHERE]
    equalities are evaluated with column affinity applied to the bound
    value, [ORDER BY] is a stable sort under SQLite's order of storage
    classes, and [LIMIT ? OFFSET ?] cuts the sorted rows.  A statement
    naming an unknown table or column, or a text of another shape, raises an
    error.  It is not SQLite's grammar: names are runs of identifier
    characters found in a table's columns (SQLite also reads keywords,
    ordinals and [rowid] there), and [INTEGER] affinity converts a bound
    text only when it is an optional minus sign and digits. *)

Module Sqlite.

Inductive affinity : Type := Integer | Text | Blob.

Record table : Type := {
  t_columns : list (string * affinity);
  t_rows : list (list (string * jsval))
}.

Definition database : Type := list (string * table).

(** Identifiers compare without regard to case. *)
Definition same_name (a b : string) : bool :=
  String.eqb (toUpperCase a) (toUpperCase b).

Fixpoint find_table (name : string) (db : database) : option table :=
  match db with
  | [] => None
  | (n, t) :: r => if same_name n name then Some t else find_table name r
  end.

Fixpoint column_affinity (c : string) (cols : list (string * affinity))
  : option affinity :=
  match cols with
  | [] => None
  | (n, a) :: r => if same_name n c then Some a else column_affinity c r
  end.

Fixpoint row_get (c : string) (row : list (string * jsval)) : jsval :=
  match row with
  | [] => JNull
  | (n, v) :: r => if same_name n c then v else row_get c r
  end.

(** *** Prepared statements *)

Record select : Type := {
  s_table : string;
  s_where : list string;
  s_order : string;
  s_desc : bool;
  s_paged : bool
}.

Fixpoint span_ident (s : string) : string * string :=
  match s with
  | String c r =>
      if is_ident_char c
      then let (i, rest) := span_ident r in (String c i, rest)
      else (EmptyString, s)
  | EmptyString => (EmptyString, EmptyString)
  end.

(** [c = ? AND c = ? ...], at least one. *)
Fixpoint parse_conditions (n : nat) (s : string)
  : option (list string * string) :=
  match n with
  | O => None
  | S n' =>
      let (c, r) := span_ident s in
      match strip_prefix " = ?" r with
      | Some r1 =>
          match strip_prefix " AND " r1 with
          | Some r2 =>
              match parse_conditions n' r2 with
              | Some (cs, rest) => Some (c :: cs, rest)
              | None => None
              end
          | None => Some ([c], r1)
          end
      | None => None
      end
  end.

Definition parse_where (s : string) : option (list string * string) :=
  match strip_prefix " WHERE " s with
  | Some r => parse_conditions (String.length r) r
  | None => Some ([], s)
  end.

Definition parse_table (s : string) : option (string * string) :=
  match strip_prefix "`" s with
  | Some r =>
      let (t, r1) := span_ident r in
      match strip_prefix "`" r1 with
      | Some r2 => Some (t, r2)
      | None => None
      end
  | None => None
  end.

Definition parse_tail (s : string) : option (string * bool * bool) :=
  match strip_prefix " ORDER BY " s with
  | Some r =>
      let (c, r1) := span_ident r in
      let dir :=
        match strip_prefix " ASC" r1 with
        | Some r2 => Some (false, r2)
        | None =>
            match strip_prefix " DESC" r1 with
            | Some r2 => Some (true, r2)
            | None => None
            end
        end in
      match dir with
      | Some (d, r2) =>
          if String.eqb r2 EmptyString then Some (c, d, false)
          else if String.eqb r2 " LIMIT ? OFFSET ?" then Some (c, d, true)
          else None
      | None => None
      end
  | None => None
  end.

Definition prepare_select (q : string) : option select :=
  match strip_prefix "SELECT * FROM " q with
  | Some r =>
      match parse_table r with
      | Some (t, r1) =>
          match parse_where r1 with
          | Some (w, r2) =>
              match parse_tail r2 with
              | Some (c, d, p) =>
                  Some {| s_table := t; s_where := w; s_order := c;
                          s_desc := d; s_paged := p |}
              | None => None
              end
          | None => None
          end
      | None => None
      end
  | None => None
  end.

(** [SELECT COUNT( * ) as total] and [DELETE]: a table and a [WHERE]. *)
Definition prepare_scoped (keyword q : string)
  : option (string * list string) :=
  match strip_prefix keyword q with
  | Some r =>
      match parse_table r with
      | Some (t, r1) =>
          match parse_where r1 with
          | Some (w, r2) =>
              if String.eqb r2 EmptyString then Some (t, w) else None
          | None => None
          end
      | None => None
      end
  | None => None
  end.

(** The text of a prepared [SELECT]. *)
Definition render_where (cs : list string) : string :=
  match cs with
  | [] => EmptyString
  | _ => " WHERE " ++ join " AND " (map (fun c => c ++ " = ?") cs)
  end.

Definition render_select (st : select) : string :=
  "SELECT * FROM `" ++ s_table st ++ "`" ++ render_where (s_where st)
  ++ " ORDER BY " ++ s_order st ++ (if s_desc st then " DESC" else " ASC")
  ++ (if s_paged st then " LIMIT ? OFFSET ?" else EmptyString).

Definition render_scoped (keyword table : string) (cs : list string)
  : string :=
  keyword ++ "`" ++ table ++ "`" ++ render_where cs.

(** *** Evaluation *)

(** A text that reads as a decimal integer. *)
Definition as_integer (s : string) : option Z :=
  let (sign, digits_text) :=
    match s with
    | String c r => if Ascii.eqb c "-" then (-1, r) else (1, s)
    | EmptyString => (1, s)
    end in
  if (nonempty digits_text && all_chars is_digit digits_text)%bool then
    match ParseInt.digits 10 None digits_text with
    | Some m => Some (sign * m)
    | None => None
    end
  else None.

(** The bound value after the affinity of the column it is compared to. *)
Definition apply_affinity (a : affinity) (v : jsval) : jsval :=
  match a, v with
  | Integer, JStr s =>
      match as_integer s with Some z => JInt z | None => v end
  | Text, JNum (Num z) => JStr (Number.print_int z)
  | _, _ => v
  end.

(** [stored = bound]: never true on [NULL]. *)
Definition sql_eq (stored bound : jsval) : bool :=
  match stored, bound with
  | JNum (Num x), JNum (Num y) => Z.eqb x y
  | JStr x, JStr y => String.eqb x y
  | _, _ => false
  end.

Fixpoint row_matches (cols : list (string * affinity))
  (row : list (string * jsval)) (conds : list string) (params : list jsval)
  : bool :=
  match conds, params with
  | c :: cs, p :: ps =>
      match column_affinity c cols with
      | Some a =>
          (sql_eq (row_get c row) (apply_affinity a p)
           && row_matches cols row cs ps)%bool
      | None => false
      end
  | _, _ => true
  end.

Definition class_rank (v : jsval) : Z :=
  match v with
  | JNull | JUndefined => 0
  | JNum _ => 1
  | JStr _ => 2
  | _ => 3
  end.

(** [a <= b] in the order of [ORDER BY]: [NULL], then numbers, then text. *)
Definition sql_le (a b : jsval) : bool :=
  match a, b with
  | JNum (Num x), JNum (Num y) => Z.leb x y
  | JStr x, JStr y => String.leb x y
  | _, _ => Z.leb (class_rank a) (class_rank b)
  end.

Definition row_le (c : string) (desc : bool) (r1 r2 : list (string * jsval))
  : bool :=
  if desc then sql_le (row_get c r2) (row_get c r1)
  else sql_le (row_get c r1) (row_get c r2).

Fixpoint insert_row (le : list (string * jsval) -> list (string * jsval) -> bool)
  (x : list (string * jsval)) (l : list (list (string * jsval)))
  : list (list (string * jsval)) :=
  match l with
  | [] => [x]
  | y :: r => if le y x then y :: insert_row le x r else x :: l
  end.

Definition sort_rows (c : string) (desc : bool)
  (l : list (list (string * jsval))) : list (list (string * jsval)) :=
  fold_left (fun sorted x => insert_row (row_le c desc) x sorted) l [].

(** [LIMIT l OFFSET o]: a negative limit is no limit, a negative offset is
    none. *)
Definition cut (l o : Z) (rows : list (list (string * jsval)))
  : list (list (string * jsval)) :=
  let rest := skipn (Z.to_nat o) rows in
  if Z.ltb l 0 then rest else firstn (Z.to_nat l) rest.

Definition known_columns (cols : list (string * affinity))
  (names : list string) : bool :=
  forallb (fun c =>
    match column_affinity c cols with Some _ => nonempty c | None => false end)
    names.

Definition matching (t : table) (conds : list string) (params : list jsval)
  : list (list (string * jsval)) :=
  filter (fun row => row_matches (t_columns t) row conds params) (t_rows t).

Definition run_select (db : database) (st : select) (params : list jsval)
  : string + list jsval :=
  match find_table (s_table st) db with
  | None => inl ("no such table: " ++ s_table st)
  | Some t =>
      if negb (known_columns (t_columns t) (s_order st :: s_where st))
      then inl "no such column"
      else
        let n := List.length (s_where st) in
        let sorted :=
          sort_rows (s_order st) (s_desc st)
            (matching t (s_where st) (firstn n params)) in
        if Nat.ltb (List.length params) n
        then inl "wrong number of parameter bindings"
        else
          match s_paged st, skipn n params with
          | false, [] => inr (map JObj sorted)
          | true, [JNum (Num l); JNum (Num o)] =>
              inr (map JObj (cut l o sorted))
          | true, [_; _] => inl "datatype mismatch"
          | _, _ => inl "wrong number of parameter bindings"
          end
  end.

Definition scoped_rows (db : database) (keyword q : string)
  (params : list jsval) : string + list (list (string * jsval)) :=
  match prepare_scoped keyword q with
  | None => inl "syntax error"
  | Some (name, conds) =>
      match find_table name db with
      | None => inl ("no such table: " ++ name)
      | Some t =>
          if negb (known_columns (t_columns t) conds)
          then inl "no such column"
          else if negb (Nat.eqb (List.length params) (List.length conds))
          then inl "wrong number of parameter bindings"
          else inr (matching t conds params)
      end
  end.

Definition all (db : database) (q : string) (params : list jsval)
  : string + list jsval :=
  match prepare_select q with
  | Some st => run_select db st params
  | None => inl "syntax error"
  end.

Definition first (db : database) (q : string) (params : list jsval)
  : string + option number :=
  match scoped_rows db "SELECT COUNT(*) as total FROM " q params with
  | inr rows => inr (Some (Num (Z.of_nat (List.length rows))))
  | inl message => inl message
  end.

(** Only [DELETE] is evaluated; it inserts no row, so [last_row_id] is 0. *)
Definition run (db : database) (q : string) (params : list jsval)
  : string + run_meta :=
  match scoped_rows db "DELETE FROM " q params with
  | inr rows =>
      inr {| changes := Z.of_nat (List.length rows); last_row_id := 0 |}
  | inl message => inl message
  end.

Definition engine (db : database) : D1 :=
  {| d1_all := all db; d1_first := first db; d1_run := run db |}.

End Sqlite.

(** ** Notions the properties are stated with *)

Module Props.

Import Rest.

(** The characters of the statement templates besides identifier
    characters. *)
Definition template_char (c : ascii) : bool :=
  Js.mem (String c EmptyString) [" "; "`"; "*"; "="; "?"; "("; ")"].

Definition statement_char (c : ascii) : bool :=
  (is_ident_char c || template_char c)%bool.

Definition is_identifier (s : string) : bool := all_chars is_ident_char s.

(** The columns that [handleGet] puts in the [WHERE] clause. *)
Definition where_columns (tableName : string) (id : option string)
  (sp : searchParams) : list string :=
  ((if given id then [idColumn tableName] else []) ++
   map (fun kv => sanitizeIdentifier (fst kv)) (filters sp))%list.

(** The statement [handleGet] prepares, in the engine's parsed form. *)
Definition select_statement (tableName : string) (id : option string)
  (sp : searchParams) : Sqlite.select :=
  {| Sqlite.s_table := sanitizeIdentifier tableName;
     Sqlite.s_where := where_columns tableName id sp;
     Sqlite.s_order := sanitizeIdentifier (sortBy_of tableName sp);
     Sqlite.s_desc := String.eqb (order_of sp) "DESC";
     Sqlite.s_paged := paginated sp |}.

Fixpoint distinct (l : list string) : bool :=
  match l with
  | [] => true
  | x :: r => (negb (Js.mem x r) && distinct r)%bool
  end.

(** The values [JSON.parse] produces: no [undefined], no function, no
    [NaN], and objects whose keys are distinct. *)
Fixpoint json_value (v : jsval) : bool :=
  match v with
  | JUndefined | JFun _ | JNum NaN => false
  | JNull | JBool _ | JNum (Num _) | JStr _ => true
  | JArr l => forallb json_value l
  | JObj l =>
      (distinct (map fst l)
       && forallb
            (fun kv : string * jsval => let (_, x) := kv in json_value x)
            l)%bool
  end.

(** What may follow a value in a text: nothing, a comma or a closing
    bracket or brace. *)
Definition delimited (s : string) : bool :=
  match s with
  | EmptyString => true
  | String c _ => (Ascii.eqb c "," || Ascii.eqb c "]" || Ascii.eqb c "}")%bool
  end.

(** The text of an array element and of an object member. *)
Definition element_text (v : jsval) : string :=
  match JSON.text v with Some t => t | None => "null" end.

Definition member_text (kv : string * jsval) : string :=
  JSON.quote (fst kv) ++ ":" ++ element_text (snd kv).

(** The length of the texts of a list and of their separators. *)
Definition texts_length (l : list string) : nat :=
  fold_right (fun t n => (String.length t + 1 + n)%nat) 0%nat l.

(** Parsing the text of [v], followed by anything that may follow a value,
    gives [v] and what follows, as soon as the bound on nested calls exceeds
    the length of the text. *)
Definition round_trips (v : jsval) : Prop :=
  json_value v = true ->
  forall n rest,
    (String.length (element_text v) < n)%nat ->
    delimited rest = true ->
    JSON.value n (element_text v ++ rest) = Some (v, rest).

(** Objects, arrays, booleans and [null]. *)
Definition structured_or_flag (v : jsval) : bool :=
  match v with
  | JObj _ | JArr _ | JBool _ | JNull => true
  | _ => false
  end.

(** The [id] field of a response body. *)
Definition response_id (r : Response) : jsval :=
  match body r with
  | JObj props => Js.get props "id"
  | _ => JUndefined
  end.

(** The identifier of a created row as the specification words it: the
    payload's value under the identifying column of the table when the
    payload has one, else the row identifier the engine assigned. *)
Definition spec_created_id (tableName : string)
  (props : list (string * jsval)) (meta : run_meta) : jsval :=
  match Js.assoc (idColumn tableName) props with
  | Some v => v
  | None => JInt (last_row_id meta)
  end.

(** A name that a plain object inherits from [Object.prototype]. *)
Definition inherited (k : string) : bool :=
  (String.eqb k "__proto__" || Js.mem k Js.object_prototype_methods)%bool.

(** The read direction as the specification words it: 0 is [false], 1 is
    [true], a string that starts with an opening brace or bracket is parsed
    and kept when it does not parse, every other value is kept. *)
Definition hydrated (v : jsval) : jsval :=
  match v with
  | JNum (Num 0) => JBool false
  | JNum (Num 1) => JBool true
  | JStr (String "{" _ as s) | JStr (String "[" _ as s) =>
      match JSON.parse s with
      | Some parsed => parsed
      | None => v
      end
  | _ => v
  end.

(** An engine that accepts every write and reports the given [meta]. *)
Definition accepting (meta : run_meta) : D1 :=
  {| d1_all := fun _ _ => inr [];
     d1_first := fun _ _ => inr None;
     d1_run := fun _ _ => inr meta |}.

(** A text at whose start an identifier ends. *)
Definition ends_identifier (s : string) : bool :=
  match s with
  | String c _ => negb (is_ident_char c)
  | EmptyString => true
  end.

(** The query string without the sort and pagination parameters. *)
Definition without_controls (sp : searchParams) : searchParams := filters sp.

(** A table of one row, for the examples. *)
Definition items : Sqlite.table :=
  {| Sqlite.t_columns :=
       [("id", Sqlite.Integer); ("name", Sqlite.Text);
        ("active", Sqlite.Integer)];
     Sqlite.t_rows :=
       [ [("id", JInt 7); ("name", JStr "pen"); ("active", JInt 1)] ] |}.

Definition store : Sqlite.database := [("items", items)].

End Props.
Import Props.

(** ** Notions for the further properties *)

Module Shapes.

Import Rest.

Fixpoint count_char (c : ascii) (s : string) : nat :=
  match s with
  | EmptyString => 0%nat
  | String d r => ((if Ascii.eqb d c then 1 else 0) + count_char c r)%nat
  end.

(** The number of [?] in a statement text. *)
Definition placeholders (s : string) : nat := count_char "?" s.

(** The characters of the [INSERT], [UPDATE] and [DELETE] templates besides
    identifier characters. *)
Definition write_char (c : ascii) : bool :=
  (is_ident_char c
   || Js.mem (String c EmptyString) [" "; "`"; "="; "?"; "("; ")"; ","])%bool.

Definition slash_free (s : string) : bool :=
  all_chars (fun c => negb (Ascii.eqb c "/")) s.

(** A path segment: not empty, no slash. *)
Definition segment (s : string) : bool := (nonempty s && slash_free s)%bool.

Definition known_method (m : string) : bool :=
  Js.mem m ["GET"; "POST"; "PUT"; "PATCH"; "DELETE"].

(** What the engine stores: [NULL], a number or a text. *)
Definition storage_scalar (v : jsval) : bool :=
  match v with
  | JNull | JNum _ | JStr _ => true
  | _ => false
  end.

(** Arrays and objects. *)
Definition structured (v : jsval) : bool :=
  match v with
  | JArr _ | JObj _ => true
  | _ => false
  end.

(** The values that come back from storage as they went in: objects,
    arrays, booleans, [null], the numbers other than 0 and 1, and the
    strings that do not start with an opening brace or bracket. *)
Definition survives (v : jsval) : bool :=
  match v with
  | JNum (Num z) => (negb (Z.eqb z 0) && negb (Z.eqb z 1))%bool
  | JStr s => negb (starts_structure s)
  | _ => structured_or_flag v
  end.

(** The row an [INSERT] of [handlePost] writes: each column with the
    parameter bound to it. *)
Definition stored_row (props : list (string * jsval)) : jsval :=
  JObj (combine (columns_of props) (post_params props)).

(** [2^53]: up to it every integer is a double, and sums, differences and
    products that stay within it are exact. *)
Definition max_safe : Z := 9007199254740992.

(** The body of the answer to a collection read. *)
Definition collection_body (rows : list jsval) (p : jsval) : jsval :=
  JObj [ ("success", JBool true); ("results", JArr rows);
         ("pagination", p) ].

End Shapes.
Import Shapes.

(** * Properties *)

(** ** Strings *)

Lemma append_nil_r (s : string) : s ++ EmptyString = s.
Proof. induction s; simpl; congruence. Qed.

Lemma append_assoc (a b c : string) : (a ++ b) ++ c = a ++ (b ++ c).
Proof. induction a; simpl; congruence. Qed.

Lemma length_append (a b : string) :
  String.length (a ++ b) = (String.length a + String.length b)%nat.
Proof. induction a; simpl; congruence. Qed.

Lemma all_chars_append (p : ascii -> bool) (a b : string) :
  all_chars p (a ++ b) = (all_chars p a && all_chars p b)%bool.
Proof.
  induction a as [|c a IH]; simpl; [reflexivity|].
  rewrite IH. now rewrite andb_assoc.
Qed.

Lemma all_chars_weaken (p q : ascii -> bool) (s : string) :
  (forall c, p c = true -> q c = true) ->
  all_chars p s = true -> all_chars q s = true.
Proof.
  intros Hpq. induction s as [|c s IH]; simpl; [reflexivity|].
  intros H. apply andb_true_iff in H as [Hc Hs].
  now rewrite (Hpq _ Hc), IH.
Qed.

Lemma all_chars_filter (p : ascii -> bool) (s : string) :
  all_chars p (filter_chars p s) = true.
Proof.
  induction s as [|c s IH]; simpl; [reflexivity|].
  destruct (p c) eqn:E; simpl; [now rewrite E|assumption].
Qed.

Lemma filter_chars_fixpoint (p : ascii -> bool) (s : string) :
  all_chars p s = true -> filter_chars p s = s.
Proof.
  induction s as [|c s IH]; simpl; [reflexivity|].
  intros H. apply andb_true_iff in H as [Hc Hs].
  now rewrite Hc, IH.
Qed.

Lemma strip_prefix_append (p s : string) : strip_prefix p (p ++ s) = Some s.
Proof.
  induction p as [|c p IH]; simpl; [reflexivity|].
  now rewrite Ascii.eqb_refl.
Qed.

Lemma all_chars_join (p : ascii -> bool) (sep : string) (l : list string) :
  all_chars p sep = true ->
  Forall (fun s => all_chars p s = true) l ->
  all_chars p (join sep l) = true.
Proof.
  intros Hsep H. induction H as [|x l Hx Hl IH]; [reflexivity|].
  destruct l as [|y l]; [exact Hx|].
  change (join sep (x :: y :: l)) with (x ++ sep ++ join sep (y :: l)).
  now rewrite !all_chars_append, Hx, Hsep, IH.
Qed.

(** ** The statements of [handleGet] *)

Section SelectStatement.

Import Rest.

Variable tableName : string.
Variable id : option string.
Variable sp : searchParams.

Lemma conditions_columns :
  conditions tableName id sp =
  map (fun c => c ++ " = ?") (where_columns tableName id sp).
Proof.
  unfold conditions, where_columns.
  rewrite map_app, map_map. now destruct (given id).
Qed.

Lemma whereClause_render :
  whereClause tableName id sp =
  Sqlite.render_where (where_columns tableName id sp).
Proof.
  unfold whereClause. rewrite conditions_columns.
  now destruct (where_columns tableName id sp).
Qed.

Lemma order_of_cases : order_of sp = "DESC" \/ order_of sp = "ASC".
Proof.
  unfold order_of. destruct (sp_get "order" sp) as [o|]; [|now right].
  destruct (String.eqb (toUpperCase o) "DESC"); [now left|now right].
Qed.

Lemma select_query_render :
  select_query tableName id sp =
  Sqlite.render_select (select_statement tableName id sp).
Proof.
  unfold select_query, Sqlite.render_select, select_statement, sanitizeKeyword.
  cbn [Sqlite.s_table Sqlite.s_where Sqlite.s_order Sqlite.s_desc
       Sqlite.s_paged].
  rewrite whereClause_render, !append_assoc.
  destruct order_of_cases as [E|E]; rewrite E; reflexivity.
Qed.

Lemma countQuery_render :
  countQuery tableName id sp =
  Sqlite.render_scoped "SELECT COUNT(*) as total FROM "
    (sanitizeIdentifier tableName) (where_columns tableName id sp).
Proof.
  unfold countQuery, Sqlite.render_scoped, sanitizeKeyword.
  now rewrite whereClause_render, !append_assoc.
Qed.

Lemma sanitizeIdentifier_identifier (name : string) :
  is_identifier (sanitizeIdentifier name) = true.
Proof. apply all_chars_filter. Qed.

Lemma idColumn_identifier : is_identifier (idColumn tableName) = true.
Proof. unfold idColumn. now destruct (String.eqb tableName "quizzes"). Qed.

Lemma where_columns_identifiers :
  forallb is_identifier (where_columns tableName id sp) = true.
Proof.
  unfold where_columns. rewrite forallb_app. apply andb_true_iff. split.
  - destruct (given id); simpl; [|reflexivity].
    now rewrite idColumn_identifier.
  - apply forallb_forall. intros c Hc. apply in_map_iff in Hc as [kv [<- _]].
    apply sanitizeIdentifier_identifier.
Qed.

Lemma identifier_statement_chars (s : string) :
  is_identifier s = true -> all_chars statement_char s = true.
Proof.
  apply all_chars_weaken. intros c Hc. unfold statement_char. now rewrite Hc.
Qed.

Lemma render_where_chars (cs : list string) :
  forallb is_identifier cs = true ->
  all_chars statement_char (Sqlite.render_where cs) = true.
Proof.
  intros H. unfold Sqlite.render_where. destruct cs as [|c cs]; [reflexivity|].
  rewrite all_chars_append. apply andb_true_iff. split; [reflexivity|].
  apply all_chars_join; [reflexivity|].
  apply Forall_forall. intros x Hx. apply in_map_iff in Hx as [y [<- Hy]].
  rewrite all_chars_append. apply andb_true_iff. split; [|reflexivity].
  apply identifier_statement_chars.
  now apply (proj1 (forallb_forall _ _) H).
Qed.

End SelectStatement.

(** C1. Every identifier in the text of the statements [handleGet]
    prepares is made of characters of [A-Za-z0-9_] only: the sanitizer's
    output has no other character; the [SELECT] and the [COUNT] statement
    are the template text around a table name, [WHERE] columns and a sort
    column that are each an output of the sanitizer (or the constant
    identifying column); and so every character of either text is an
    identifier character or one of the template's space, backquote, star,
    equal sign, question mark and parentheses. *)
Theorem statement_identifiers_sanitized
  (tableName : string) (id : option string) (sp : Rest.searchParams) :
  (forall name, is_identifier (Rest.sanitizeIdentifier name) = true) /\
  (let st := select_statement tableName id sp in
   Rest.select_query tableName id sp = Sqlite.render_select st /\
   Rest.countQuery tableName id sp =
     Sqlite.render_scoped "SELECT COUNT(*) as total FROM "
       (Sqlite.s_table st) (Sqlite.s_where st) /\
   Sqlite.s_table st = Rest.sanitizeIdentifier tableName /\
   Sqlite.s_order st =
     Rest.sanitizeIdentifier (Rest.sortBy_of tableName sp) /\
   is_identifier (Sqlite.s_table st) = true /\
   forallb is_identifier (Sqlite.s_where st) = true /\
   is_identifier (Sqlite.s_order st) = true) /\
  all_chars statement_char (Rest.select_query tableName id sp) = true /\
  all_chars statement_char (Rest.countQuery tableName id sp) = true.
Proof.
  split; [exact sanitizeIdentifier_identifier|].
  split; [|split].
  - cbn zeta. repeat split.
    + apply select_query_render.
    + apply countQuery_render.
    + apply sanitizeIdentifier_identifier.
    + apply where_columns_identifiers.
    + apply sanitizeIdentifier_identifier.
  - rewrite select_query_render. unfold Sqlite.render_select, select_statement.
    cbn [Sqlite.s_table Sqlite.s_where Sqlite.s_order Sqlite.s_desc
         Sqlite.s_paged].
    rewrite !all_chars_append.
    rewrite render_where_chars by apply where_columns_identifiers.
    rewrite (identifier_statement_chars _
               (sanitizeIdentifier_identifier tableName)).
    rewrite (identifier_statement_chars _
               (sanitizeIdentifier_identifier (Rest.sortBy_of tableName sp))).
    destruct (String.eqb (Rest.order_of sp) "DESC"), (Rest.paginated sp);
      reflexivity.
  - rewrite countQuery_render. unfold Sqlite.render_scoped.
    rewrite !all_chars_append.
    rewrite render_where_chars by apply where_columns_identifiers.
    rewrite (identifier_statement_chars _
               (sanitizeIdentifier_identifier tableName)).
    reflexivity.
Qed.

(** ** The parameters of the count statement *)

Lemma drop_last2_app (l : list jsval) (a b : jsval) :
  Rest.drop_last2 (l ++ [a; b]) = l.
Proof.
  unfold Rest.drop_last2. rewrite length_app. simpl List.length.
  replace (List.length l + 2 - 2)%nat with (List.length l + 0)%nat by lia.
  rewrite firstn_app_2. simpl. apply List.app_nil_r.
Qed.

(** ** Pagination *)

(** What holds of the pagination arithmetic: with [limit] and [page] read as
    the integers [l] and [p], the page is [max 1 p], the offset is
    [(page - 1) * l], and for [l > 0] the page count is the quotient
    rounded up; for [l = 0] there is one page and the limit echoed is the
    total. *)
Lemma pagination_arithmetic (sp : Rest.searchParams) (l p total : Z) :
  Rest.limit_of sp = Num l ->
  parseInt (Rest.or_else (Rest.sp_get "page" sp) "1") = Num p ->
  Rest.page_of sp = Num (Z.max 1 p) /\
  Rest.offset_of sp = Num ((Z.max 1 p - 1) * l) /\
  Rest.pagination sp (Num total) =
    JObj [ ("total_items", JInt total);
           ("total_pages",
            JInt (if Z.ltb 0 l then - ((- total) / l) else 1));
           ("current_page", JInt (Z.max 1 p));
           ("limit", JInt (if Z.eqb l 0 then total else l)) ].
Proof.
  intros Hl Hp.
  assert (Hpage : Rest.page_of sp = Num (Z.max 1 p))
    by (unfold Rest.page_of; now rewrite Hp).
  split; [exact Hpage|]. split.
  - unfold Rest.offset_of. now rewrite Hpage, Hl.
  - unfold Rest.pagination. rewrite Hpage, Hl. simpl.
    unfold JInt. destruct (Z.ltb 0 l), (Z.eqb l 0); reflexivity.
Qed.

Lemma ceil_div_spec (a b : Z) :
  0 < b -> (- ((- a) / b) - 1) * b < a <= - ((- a) / b) * b.
Proof.
  intros Hb.
  pose proof (Z.div_mod (- a) b ltac:(lia)) as E.
  pose proof (Z.mod_pos_bound (- a) b Hb) as B.
  nia.
Qed.

Example pagination_47_10_3 :
  let sp := [("limit", "10"); ("page", "3")] in
  Rest.offset_of sp = Num 20 /\
  Rest.pagination sp (Num 47) =
    JObj [ ("total_items", JInt 47); ("total_pages", JInt 5);
           ("current_page", JInt 3); ("limit", JInt 10) ].
Proof. split; reflexivity. Qed.

Example pagination_unpaginated :
  Rest.pagination [] (Num 47) =
    JObj [ ("total_items", JInt 47); ("total_pages", JInt 1);
           ("current_page", JInt 1); ("limit", JInt 47) ] /\
  Rest.pagination [("limit", "0")] (Num 47) = Rest.pagination [] (Num 47).
Proof. split; reflexivity. Qed.

(** C6. On [?limit=-5] with 12 matching rows the request is unpaginated
    (no [LIMIT], one page) but the limit echoed is [-5], not the total 12;
    on [?page=abc] the page is [NaN], not clamped to 1. *)
Theorem pagination_negative_limit_and_unparsable_page :
  Rest.paginated [("limit", "-5")] = false /\
  Rest.pagination [("limit", "-5")] (Num 12) =
    JObj [ ("total_items", JInt 12); ("total_pages", JInt 1);
           ("current_page", JInt 1); ("limit", JInt (-5)) ] /\
  Rest.page_of [("page", "abc")] = NaN /\
  Rest.select_params None [("page", "abc"); ("limit", "2")] =
    [JInt 2; JNum NaN].
Proof. repeat split. Qed.

(** ** Delete *)

(** C9. [handleDelete] answers 200 with the success acknowledgment exactly
    when the engine reports at least one affected row, 404 "Record not
    found" exactly when it reports none, and 500 exactly when the engine
    raises an error, whose message the body carries. *)
Theorem delete_outcome (db : D1) (tableName id : string) :
  (forall meta,
     d1_run db (Rest.delete_query tableName) [JStr id] = inr meta ->
     0 <= changes meta) ->
  let answer := Rest.handleDelete db tableName id in
  (answer =
     json (JObj [ ("success", JBool true);
                  ("message", JStr "Resource deleted successfully") ])
   <-> exists meta,
         d1_run db (Rest.delete_query tableName) [JStr id] = inr meta /\
         1 <= changes meta) /\
  (answer = json_status (JObj [("error", JStr "Record not found")]) 404
   <-> exists meta,
         d1_run db (Rest.delete_query tableName) [JStr id] = inr meta /\
         changes meta = 0) /\
  (status answer = 500
   <-> exists message,
         d1_run db (Rest.delete_query tableName) [JStr id] = inl message /\
         answer = Rest.failure message 500) /\
  (status answer = 200 \/ status answer = 404 \/ status answer = 500).
Proof.
  intros Hnonneg answer. subst answer. unfold Rest.handleDelete.
  destruct (d1_run db (Rest.delete_query tableName) [JStr id])
    as [message|meta] eqn:E.
  - repeat split; try discriminate; auto.
    + intros [meta [H _]]. discriminate.
    + intros [meta [H _]]. discriminate.
    + intros _. now exists message.
  - specialize (Hnonneg meta eq_refl).
    destruct (Z.eqb_spec (changes meta) 0) as [Hz|Hz].
    + repeat split; try discriminate; auto.
      * intros [m [H H1]]. inversion H; subst. lia.
      * intros _. now exists meta.
      * intros [m [H _]]. discriminate.
    + repeat split; try discriminate; auto.
      * intros _. exists meta. split; [reflexivity|lia].
      * intros [m [H H1]]. inversion H; subst. contradiction.
      * intros [m [H _]]. discriminate.
Qed.

Lemma delete_outcome_witness :
  Rest.handleDelete (Sqlite.engine store) "items" "999" =
    json_status (JObj [("error", JStr "Record not found")]) 404 /\
  Rest.handleDelete (Sqlite.engine store) "items" "7" =
    json (JObj [ ("success", JBool true);
                 ("message", JStr "Resource deleted successfully") ]).
Proof.
  split.
  - apply (delete_outcome (Sqlite.engine store) "items" "999").
    + intros meta H. vm_compute in H. inversion H. simpl. lia.
    + exists {| changes := 0; last_row_id := 0 |}. split; reflexivity.
  - apply (delete_outcome (Sqlite.engine store) "items" "7").
    + intros meta H. vm_compute in H. inversion H. simpl. lia.
    + exists {| changes := 1; last_row_id := 0 |}.
      split; [reflexivity|simpl; lia].
Defined.

(** ** Create *)

Lemma invalid_payload_spec (data : jsval) :
  Rest.invalid_payload data = false <-> exists props, data = JObj props.
Proof.
  split.
  - destruct data; try discriminate.
    + unfold Rest.invalid_payload. simpl.
      destruct b; discriminate.
    + unfold Rest.invalid_payload. simpl.
      destruct (Number.truthy n); discriminate.
    + unfold Rest.invalid_payload. simpl.
      destruct (nonempty s); discriminate.
    + intros _. now exists props.
  - intros [props ->]. reflexivity.
Qed.

(** C3, as stated, fails: on the table [items] a payload with its own [id]
    gets the engine's row identifier back, not that [id]. *)
Lemma created_id_counterexample :
  ~ (forall (db : D1) (tableName : string) (props : list (string * jsval))
       (meta : run_meta),
       d1_run db (Rest.insert_query tableName props) (Rest.post_params props)
         = inr meta ->
       response_id (Rest.handlePost db tableName (JObj props)) =
         spec_created_id tableName props meta).
Proof.
  intros H.
  specialize (H (accepting {| changes := 1; last_row_id := 42 |}) "items"
                [("id", JStr "k1"); ("name", JStr "x")]
                {| changes := 1; last_row_id := 42 |} eq_refl).
  vm_compute in H. discriminate.
Qed.

(** C3, amended. For every successful Create the answer is 201 and its
    identifier is the payload's [slug] when that value is truthy, whatever
    the table, and otherwise the row identifier the engine assigned; the
    identifying column of the table plays no part. *)
Theorem created_id_is_slug_or_row_id
  (db : D1) (tableName : string) (props : list (string * jsval))
  (meta : run_meta) :
  d1_run db (Rest.insert_query tableName props) (Rest.post_params props)
    = inr meta ->
  Rest.handlePost db tableName (JObj props) =
    json_status
      (JObj [ ("success", JBool true);
              ("message", JStr (tableName ++ " created successfully"));
              ("id", if Js.truthy (Js.get props "slug")
                     then Js.get props "slug"
                     else JInt (last_row_id meta)) ])
      201.
Proof.
  intros H. unfold Rest.handlePost. simpl Rest.invalid_payload. cbv iota.
  rewrite H. reflexivity.
Qed.

Lemma created_id_is_slug_or_row_id_witness :
  response_id
    (Rest.handlePost (accepting {| changes := 1; last_row_id := 42 |})
       "items" (JObj [("slug", JStr "intro"); ("id", JInt 5)]))
  = JStr "intro".
Proof.
  rewrite (created_id_is_slug_or_row_id
             (accepting {| changes := 1; last_row_id := 42 |}) "items"
             [("slug", JStr "intro"); ("id", JInt 5)]
             (meta := {| changes := 1; last_row_id := 42 |}) eq_refl).
  reflexivity.
Defined.

(** ** Update against Create *)

Lemma update_rejects_as_create (db : D1) (tableName id : string)
  (data : jsval) :
  (status (Rest.handleUpdate db tableName id data) = 400 <->
   Rest.invalid_payload data = true) /\
  (status (Rest.handlePost db tableName data) = 400 <->
   Rest.invalid_payload data = true).
Proof.
  unfold Rest.handleUpdate, Rest.handlePost.
  destruct (Rest.invalid_payload data) eqn:E.
  - split; split; reflexivity.
  - apply invalid_payload_spec in E as [props ->].
    split; split; try discriminate.
    + destruct (d1_run db _ _); discriminate.
    + destruct (d1_run db _ _) as [m|]; [|discriminate].
      destruct (Js.includes m _); discriminate.
Qed.

Lemma update_param_as_create (value : jsval) :
  value <> JUndefined -> Rest.update_param value = Rest.post_param value.
Proof.
  intros H. destruct value; try reflexivity. contradiction.
Qed.

Lemma update_params_as_create (props : list (string * jsval)) :
  (forall k, In k (Js.keys props) ->
             Js.get props (Rest.sanitizeIdentifier k) <> JUndefined) ->
  Rest.update_params props = Rest.post_params props.
Proof.
  intros H. unfold Rest.update_params, Rest.post_params, Rest.columns_of.
  rewrite !map_map. apply map_ext_in. intros k Hk.
  apply update_param_as_create. now apply H.
Qed.

(** C4. On the body [{"na-me": "x"}] the column is [name], which the
    payload does not have: Update binds [undefined] where Create binds
    [null]. *)
Theorem update_binds_undefined_where_create_binds_null :
  Rest.invalid_payload (JObj [("na-me", JStr "x")]) = false /\
  Rest.columns_of [("na-me", JStr "x")] = ["name"] /\
  Rest.update_params [("na-me", JStr "x")] = [JUndefined] /\
  Rest.post_params [("na-me", JStr "x")] = [JNull] /\
  Rest.update_param JUndefined = JUndefined /\
  Rest.post_param JUndefined = JNull.
Proof. repeat split. Qed.

(** ** Columns whose key the sanitizer changes *)

Lemma sanitize_changes_dirty_key (k : string) :
  is_identifier k = false -> Rest.sanitizeIdentifier k <> k.
Proof.
  intros H E. pose proof (sanitizeIdentifier_identifier k) as S.
  rewrite E in S. congruence.
Qed.

Lemma get_absent (props : list (string * jsval)) (k : string) :
  Js.assoc k props = None -> inherited k = false ->
  Js.get props k = JUndefined.
Proof.
  unfold Js.get, inherited. intros -> H.
  apply orb_false_iff in H as [-> ->]. reflexivity.
Qed.

(** C10, as stated, fails: when the sanitized key is itself a key of the
    payload, the column of the changed key is bound to that other key's
    value, not to [null]. *)
Lemma dirty_key_counterexample :
  ~ (forall (props : list (string * jsval)) (i : nat) (k : string),
       nth_error (Js.keys props) i = Some k ->
       is_identifier k = false ->
       nth_error (Rest.post_params props) i = Some JNull).
Proof.
  intros H.
  specialize (H [("na-me", JStr "x"); ("name", JStr "y")] 0%nat "na-me"
                eq_refl eq_refl).
  vm_compute in H. discriminate.
Qed.

(** C10, amended. For every Create payload and every key [k] of it, the
    column is the sanitized key and the value bound is the coercion of what
    the payload holds under the sanitized key.  When [k] has a character
    outside [A-Za-z0-9_] the sanitized key differs from [k], so the value of
    [k] itself is not read; the value bound is [null] when the sanitized key
    is neither a key of the payload nor a name inherited from
    [Object.prototype]. *)
Theorem dirty_key_binds_lookup_of_sanitized_key
  (tableName : string) (props : list (string * jsval)) (i : nat) (k : string) :
  nth_error (Js.keys props) i = Some k ->
  let col := Rest.sanitizeIdentifier k in
  nth_error (Rest.columns_of props) i = Some col /\
  nth_error (Rest.post_params props) i =
    Some (Rest.post_param (Js.get props col)) /\
  (is_identifier k = false -> col <> k) /\
  (Js.assoc col props = None -> inherited col = false ->
   nth_error (Rest.post_params props) i = Some JNull) /\
  Rest.insert_query tableName props =
    "INSERT INTO " ++ Rest.sanitizeKeyword tableName ++ " ("
    ++ join ", " (map Rest.sanitizeIdentifier (Js.keys props))
    ++ ") VALUES ("
    ++ join ", " (map (fun _ => "?") (Js.keys props)) ++ ")".
Proof.
  intros Hk col.
  assert (Hcol : nth_error (Rest.columns_of props) i = Some col).
  { unfold Rest.columns_of. rewrite nth_error_map, Hk. reflexivity. }
  assert (Hpar : nth_error (Rest.post_params props) i =
                 Some (Rest.post_param (Js.get props col))).
  { unfold Rest.post_params. rewrite nth_error_map, Hcol. reflexivity. }
  repeat split; try assumption.
  - apply sanitize_changes_dirty_key.
  - intros Ha Hi. rewrite Hpar, (get_absent _ _ Ha Hi). reflexivity.
  - unfold Rest.insert_query, Rest.columns_of. now rewrite map_map.
Qed.

Lemma dirty_key_binds_lookup_of_sanitized_key_witness :
  nth_error (Rest.post_params [("na-me", JStr "x"); ("age", JInt 3)]) 0
    = Some JNull.
Proof.
  apply (dirty_key_binds_lookup_of_sanitized_key "items"
           [("na-me", JStr "x"); ("age", JInt 3)] 0 (k := "na-me") eq_refl);
    reflexivity.
Defined.

(** ** Hydration *)

Lemma set_prop_fresh (k : string) (v : jsval) (o : list (string * jsval)) :
  Js.mem k (map fst o) = false -> Js.set_prop k v o = (o ++ [(k, v)])%list.
Proof.
  induction o as [|[k' v'] o IH]; simpl; [reflexivity|].
  intros H. apply orb_false_iff in H as [-> H]. now rewrite IH.
Qed.

Lemma mem_app (k : string) (a b : list string) :
  Js.mem k (a ++ b) = (Js.mem k a || Js.mem k b)%bool.
Proof. unfold Js.mem. apply existsb_app. Qed.

Lemma fold_set_prop_distinct (l acc : list (string * jsval)) :
  distinct (map fst l) = true ->
  (forall x, In x (map fst l) -> Js.mem x (map fst acc) = false) ->
  fold_left (fun o kv => Js.set_prop (fst kv) (snd kv) o) l acc
  = (acc ++ l)%list.
Proof.
  revert acc. induction l as [|[k v] l IH]; intros acc Hd Hacc; simpl.
  - now rewrite List.app_nil_r.
  - simpl in Hd. apply andb_true_iff in Hd as [Hk Hd].
    apply negb_true_iff in Hk.
    rewrite set_prop_fresh by (apply Hacc; now left).
    rewrite IH; [now rewrite <- List.app_assoc|assumption|].
    intros x Hx. rewrite map_app, mem_app. simpl.
    rewrite (Hacc x (or_intror Hx)). simpl.
    destruct (String.eqb_spec x k) as [->|]; [|reflexivity].
    exfalso. clear - Hk Hx. unfold Js.mem in Hk.
    assert (existsb (String.eqb k) (map fst l) = true); [|congruence].
    apply existsb_exists. exists k. split; [assumption|apply String.eqb_refl].
Qed.

Lemma fromEntries_distinct (l : list (string * jsval)) :
  distinct (map fst l) = true -> Js.fromEntries l = JObj l.
Proof.
  intros H. unfold Js.fromEntries.
  now rewrite fold_set_prop_distinct.
Qed.

Lemma hydrateValue_cases (v : jsval) : hydrateValue v = hydrated v.
Proof.
  destruct v as [| |b|[|z]|s|l|l|f]; try reflexivity.
  - unfold hydrateValue, is_number, Number.eqb.
    destruct z as [|[p|p|]|p]; reflexivity.
  - unfold hydrateValue, hydrated, is_number.
    destruct s as [|c s]; [reflexivity|].
    unfold starts_structure.
    destruct (Ascii.eqb_spec c "{") as [->|H1]; [reflexivity|].
    destruct (Ascii.eqb_spec c "[") as [->|H2]; [reflexivity|].
    simpl.
    destruct c as [[] [] [] [] [] [] [] []]; try reflexivity;
      contradiction.
Qed.

Lemma hydrateRow_object (props : list (string * jsval)) :
  distinct (map fst props) = true ->
  hydrateRow (JObj props) =
    JObj (map (fun kv => (fst kv, hydrateValue (snd kv))) props).
Proof.
  intros H. unfold hydrateRow. simpl.
  apply fromEntries_distinct. now rewrite map_map.
Qed.

(** C8. [hydrateValue] leaves [null] and [undefined] as they are, turns the
    number 0 into [false] and 1 into [true], parses a string that starts
    with an opening brace or bracket and keeps that string when it does not
    parse, and leaves every other value as it is.  [hydrateRow] applies it
    to the value of every column of a row, and [handleGet] applies
    [hydrateRow] to every row the engine returns: to each row of a
    collection and to the first row of an id lookup. *)
Theorem hydration_of_values_and_rows
  (db : D1) (tableName : string) (sp : Rest.searchParams) (id : string)
  (results found : list jsval) (row : jsval) (answer : option number)
  (props : list (string * jsval)) :
  distinct (map fst props) = true ->
  d1_all db (Rest.select_query tableName None sp) (Rest.select_params None sp)
    = inr results ->
  d1_first db (Rest.countQuery tableName None sp) (Rest.countParams None sp)
    = inr answer ->
  id <> EmptyString ->
  d1_all db (Rest.select_query tableName (Some id) sp)
    (Rest.select_params (Some id) sp) = inr (row :: found) ->
  hydrateValue JNull = JNull /\
  hydrateValue JUndefined = JUndefined /\
  hydrateValue (JInt 0) = JBool false /\
  hydrateValue (JInt 1) = JBool true /\
  (forall s,
     starts_structure s = true ->
     hydrateValue (JStr s) =
       match JSON.parse s with Some parsed => parsed | None => JStr s end) /\
  (forall v, hydrateValue v = hydrated v) /\
  hydrateRow (JObj props) =
    JObj (map (fun kv => (fst kv, hydrateValue (snd kv))) props) /\
  (exists p,
     Rest.handleGet db tableName None sp =
       json (JObj [ ("success", JBool true);
                    ("results", JArr (map hydrateRow results));
                    ("pagination", p) ])) /\
  Rest.handleGet db tableName (Some id) sp =
    json (JObj [("success", JBool true); ("result", hydrateRow row)]).
Proof.
  intros Hprops Hall Hfirst Hid Hone.
  repeat split; try reflexivity.
  - intros s Hs. unfold hydrateValue. simpl. now rewrite Hs.
  - apply hydrateValue_cases.
  - now apply hydrateRow_object.
  - unfold Rest.handleGet. rewrite Hall. simpl Rest.given. cbv iota.
    rewrite Hfirst. eexists. reflexivity.
  - unfold Rest.handleGet. rewrite Hone.
    destruct id; [contradiction|]. reflexivity.
Qed.

(** ** The round trip of [JSON.stringify] and [JSON.parse] *)

(** *** Decimal digits *)

Lemma digits_of_uint (d : Decimal.uint) :
  all_chars is_digit (NilEmpty.string_of_uint d) = true.
Proof. induction d; simpl; auto. Qed.

Lemma print_nat_digits (n : N) :
  all_chars is_digit (Number.print_nat n) = true.
Proof.
  unfold Number.print_nat, NilZero.string_of_uint.
  destruct (N.to_uint n) eqn:E; try reflexivity;
    rewrite <- E; apply digits_of_uint.
Qed.

Lemma nzhead_no_leading_zero (d d' : Decimal.uint) :
  Decimal.nzhead d <> Decimal.D0 d'.
Proof. induction d; simpl; try discriminate; assumption. Qed.

Lemma to_uint_nonnil (n : N) : N.to_uint n <> Decimal.Nil.
Proof.
  destruct n; simpl; [discriminate|apply DecimalPos.Unsigned.to_uint_nonnil].
Qed.

Lemma to_uint_leading_zero (n : N) (d : Decimal.uint) :
  N.to_uint n = Decimal.D0 d -> d = Decimal.Nil.
Proof.
  intros E. pose proof (DecimalN.Unsigned.to_of (N.to_uint n)) as H.
  rewrite DecimalN.Unsigned.of_to, E in H.
  unfold Decimal.unorm in H. simpl in H.
  destruct (Decimal.nzhead d) eqn:Hd; try discriminate.
  - now injection H.
  - now apply nzhead_no_leading_zero in Hd.
Qed.

Lemma delimited_not_digit (c : ascii) (r : string) :
  delimited (String c r) = true ->
  is_digit c = false /\ JSON.starts_fraction (String c r) = false /\
  JSON.is_ws c = false.
Proof.
  simpl. intros H.
  apply orb_true_iff in H as [H|H]; [apply orb_true_iff in H as [H|H]|];
    apply Ascii.eqb_eq in H; subst; repeat split.
Qed.

Lemma span_digits_append (a rest : string) :
  all_chars is_digit a = true ->
  delimited rest = true ->
  JSON.span_digits (a ++ rest) = (a, rest).
Proof.
  intros Ha Hr. induction a as [|c a IH]; simpl.
  - destruct rest as [|c r]; [reflexivity|].
    apply delimited_not_digit in Hr as [Hd _]. simpl. now rewrite Hd.
  - simpl in Ha. apply andb_true_iff in Ha as [-> Ha].
    now rewrite (IH Ha).
Qed.

Lemma print_nat_shape (n : N) :
  exists d more,
    Number.print_nat n = String d more /\
    is_digit d = true /\
    (Ascii.eqb d "0" && nonempty more)%bool = false.
Proof.
  unfold Number.print_nat, NilZero.string_of_uint.
  destruct (N.to_uint n) as [|u|u|u|u|u|u|u|u|u|u] eqn:E;
    try (simpl; eexists; eexists; repeat split; fail).
  apply to_uint_leading_zero in E as ->. simpl.
  eexists. eexists. repeat split.
Qed.

Lemma digits_token_print (sign : Z) (n : N) (rest : string) :
  delimited rest = true ->
  JSON.digits_token sign (Number.print_nat n ++ rest)
  = Some (JInt (sign * Z.of_N n), rest).
Proof.
  intros Hr. unfold JSON.digits_token.
  rewrite span_digits_append by (auto using print_nat_digits).
  destruct (print_nat_shape n) as [d [more [E [_ Hz]]]].
  rewrite E, Hz, <- E.
  assert (Hf : JSON.starts_fraction rest = false).
  { destruct rest as [|c r]; [reflexivity|].
    now apply delimited_not_digit in Hr as [_ [-> _]]. }
  rewrite Hf. unfold Number.print_nat.
  rewrite NilZero.usu by apply to_uint_nonnil.
  now rewrite DecimalN.Unsigned.of_to.
Qed.

Lemma number_token_print (z : Z) (rest : string) :
  delimited rest = true ->
  JSON.number_token (Number.print_int z ++ rest) = Some (JInt z, rest).
Proof.
  intros Hr. unfold Number.print_int.
  destruct (Z.ltb_spec z 0) as [Hz|Hz].
  - simpl. rewrite digits_token_print by assumption.
    do 3 f_equal. lia.
  - destruct (print_nat_shape (Z.to_N z)) as [d [more [E [Hd _]]]].
    unfold JSON.number_token. rewrite E. simpl.
    destruct (Ascii.eqb_spec d "-") as [->|_]; [discriminate|].
    change (String d (more ++ rest)) with (String d more ++ rest).
    rewrite <- E, digits_token_print by assumption.
    do 3 f_equal. lia.
Qed.

(** *** String literals *)

Lemma string_body_escape_char (c : ascii) (tail : string) :
  JSON.string_body (JSON.escape_char c ++ tail)
  = JSON.push c (JSON.string_body tail).
Proof.
  destruct c as [[] [] [] [] [] [] [] []]; reflexivity.
Qed.

Lemma string_body_quote (s rest : string) :
  JSON.string_body (JSON.escape s ++ String JSON.dquote rest) = Some (s, rest).
Proof.
  induction s as [|c s IH]; simpl.
  - reflexivity.
  - now rewrite append_assoc, string_body_escape_char, IH.
Qed.

(** *** Values *)

Lemma digit_not_space (c : ascii) :
  is_digit c = true -> JSON.is_ws c = false /\ Ascii.eqb c "]" = false.
Proof.
  destruct c as [[] [] [] [] [] [] [] []]; try discriminate; now split.
Qed.

Lemma element_text_first (v : jsval) :
  json_value v = true ->
  exists c t,
    element_text v = String c t /\ JSON.is_ws c = false /\
    Ascii.eqb c "]" = false.
Proof.
  destruct v as [| |[]|[|z]|s|l|l|f]; try discriminate; intros _;
    try (eexists; eexists; repeat split; fail).
  unfold element_text. simpl. unfold Number.print_int.
  destruct (Z.ltb z 0).
  - eexists. eexists. repeat split.
  - destruct (print_nat_shape (Z.to_N z)) as [d [more [E [Hd _]]]].
    rewrite E. exists d, more. split; [reflexivity|].
    now apply digit_not_space.
Qed.

Lemma skip_ws_first (c : ascii) (s : string) :
  JSON.is_ws c = false -> JSON.skip_ws (String c s) = String c s.
Proof. intros H. simpl. now rewrite H. Qed.

Lemma join_cons2 (sep x y : string) (l : list string) :
  join sep (x :: y :: l) = x ++ sep ++ join sep (y :: l).
Proof. reflexivity. Qed.

Lemma first_is_skip (c d : ascii) (s : string) :
  JSON.is_ws d = false ->
  JSON.first_is c (JSON.skip_ws (String d s)) = Ascii.eqb d c.
Proof. intros H. simpl. now rewrite H. Qed.

Lemma rest_of_skip (d : ascii) (s : string) :
  JSON.is_ws d = false -> JSON.rest_of (JSON.skip_ws (String d s)) = s.
Proof. intros H. simpl. now rewrite H. Qed.

Ltac skip_delimiter :=
  repeat (rewrite first_is_skip by reflexivity;
          match goal with
          | |- context [Ascii.eqb ?a ?b] =>
              let r := eval vm_compute in (Ascii.eqb a b) in
              change (Ascii.eqb a b) with r
          end; cbv iota);
  try rewrite rest_of_skip by reflexivity.

Lemma elements_texts (l : list jsval) :
  Forall round_trips l -> l <> [] -> forallb json_value l = true ->
  forall n rest,
    (texts_length (map element_text l) < n)%nat ->
    JSON.elements n (join "," (map element_text l) ++ String "]" rest)
    = Some (l, rest).
Proof.
  induction 1 as [|x l Hx Hl IH]; [congruence|].
  intros _ Hj n rest Hn. simpl in Hj. apply andb_true_iff in Hj as [Hjx Hjl].
  destruct n as [|n]; [lia|]. simpl in Hn.
  specialize (Hx Hjx).
  change (JSON.elements (S n)) with
    (JSON.elements_step (JSON.value n) (JSON.elements n)).
  unfold JSON.elements_step.
  destruct l as [|y l].
  - simpl map. simpl join.
    rewrite Hx by (reflexivity || lia). skip_delimiter. reflexivity.
  - simpl map. rewrite join_cons2, !append_assoc.
    change ("," ++ ?s) with (String "," s).
    rewrite Hx by (reflexivity || simpl in Hn; lia).
    skip_delimiter.
    rewrite IH; [reflexivity|discriminate|assumption|].
    simpl in Hn |- *. lia.
Qed.

Lemma member_text_eq (k : string) (v : jsval) (tail : string) :
  member_text (k, v) ++ tail =
  String JSON.dquote
    (JSON.escape k ++ String JSON.dquote (String ":" (element_text v ++ tail))).
Proof.
  unfold member_text, JSON.quote. simpl.
  now rewrite !append_assoc.
Qed.

Lemma member_text_length (k : string) (v : jsval) :
  (String.length (element_text v) < String.length (member_text (k, v)))%nat.
Proof.
  unfold member_text, JSON.quote. simpl.
  rewrite !length_append. simpl. lia.
Qed.

Lemma members_texts (l : list (string * jsval)) :
  Forall (fun kv => round_trips (snd kv)) l -> l <> [] ->
  forallb (fun kv : string * jsval => let (_, x) := kv in json_value x) l
    = true ->
  forall n rest,
    (texts_length (map member_text l) < n)%nat ->
    JSON.members n (join "," (map member_text l) ++ String "}" rest)
    = Some (l, rest).
Proof.
  induction 1 as [|[k x] l Hx Hl IH]; [congruence|].
  intros _ Hj n rest Hn. simpl in Hj. apply andb_true_iff in Hj as [Hjx Hjl].
  destruct n as [|n]; [lia|].
  specialize (Hx Hjx). simpl snd in Hx.
  pose proof (member_text_length k x) as Hlen.
  change (JSON.members (S n)) with
    (JSON.members_step (JSON.value n) (JSON.members n)).
  unfold JSON.members_step.
  change (texts_length (map member_text ((k, x) :: l)))
    with (String.length (member_text (k, x)) + 1
          + texts_length (map member_text l))%nat in Hn.
  destruct l as [|y l].
  - simpl map. simpl join.
    rewrite member_text_eq. skip_delimiter.
    rewrite string_body_quote. skip_delimiter.
    rewrite Hx by (reflexivity || lia). skip_delimiter. reflexivity.
  - simpl map. rewrite join_cons2, !append_assoc.
    change ("," ++ ?s) with (String "," s).
    rewrite member_text_eq. skip_delimiter.
    rewrite string_body_quote. skip_delimiter.
    rewrite Hx by (reflexivity || lia). skip_delimiter.
    rewrite IH; [reflexivity|discriminate|assumption|].
    lia.
Qed.

Lemma texts_length_join (l : list string) :
  l <> [] ->
  texts_length l = S (String.length (join "," l)).
Proof.
  induction l as [|x l IH]; [congruence|]. intros _.
  destruct l as [|y l].
  - simpl. lia.
  - rewrite join_cons2.
    change (texts_length (x :: y :: l))
      with (String.length x + 1 + texts_length (y :: l))%nat.
    rewrite IH by discriminate. rewrite !length_append. simpl. lia.
Qed.

Lemma json_value_text (v : jsval) :
  json_value v = true -> JSON.text v = Some (element_text v).
Proof.
  unfold element_text.
  destruct v as [| |[]|[|z]|s|l|l|f]; try discriminate; reflexivity.
Qed.

Lemma members_flat_map (l : list (string * jsval)) :
  forallb (fun kv : string * jsval => let (_, x) := kv in json_value x) l
    = true ->
  flat_map
    (fun kv : string * jsval =>
       let (k, x) := kv in
       match JSON.text x with
       | Some t => [JSON.quote k ++ ":" ++ t]
       | None => []
       end) l
  = map member_text l.
Proof.
  induction l as [|[k x] l IH]; [reflexivity|].
  intros H. cbn [forallb] in H. apply andb_true_iff in H as [Hx Hl].
  cbn [flat_map map]. rewrite (IH Hl), (json_value_text _ Hx).
  reflexivity.
Qed.

Lemma object_text (l : list (string * jsval)) :
  forallb (fun kv : string * jsval => let (_, x) := kv in json_value x) l
    = true ->
  element_text (JObj l) = "{" ++ join "," (map member_text l) ++ "}".
Proof.
  intros H. rewrite <- (members_flat_map _ H). reflexivity.
Qed.

Lemma array_text (l : list jsval) :
  element_text (JArr l) = "[" ++ join "," (map element_text l) ++ "]".
Proof. reflexivity. Qed.

Lemma value_step_number
  (e : string -> option (list jsval * string))
  (m : string -> option (list (string * jsval) * string))
  (c : ascii) (r : string) :
  (Ascii.eqb c "-" || is_digit c)%bool = true ->
  JSON.value_step e m (String c r) = JSON.number_token (String c r).
Proof.
  destruct c as [[] [] [] [] [] [] [] []]; intros H; vm_compute in H;
    try discriminate H; reflexivity.
Qed.

Lemma print_int_first (z : Z) :
  exists c t,
    Number.print_int z = String c t /\
    (Ascii.eqb c "-" || is_digit c)%bool = true.
Proof.
  unfold Number.print_int. destruct (Z.ltb z 0).
  - eexists. eexists. split; reflexivity.
  - destruct (print_nat_shape (Z.to_N z)) as [d [more [E [Hd _]]]].
    exists d, more. split; [assumption|]. rewrite Hd. apply orb_true_r.
Qed.

Lemma elements_not_closing (l : list jsval) (tail : string) :
  l <> [] -> forallb json_value l = true ->
  JSON.first_is "]"
    (JSON.skip_ws (join "," (map element_text l) ++ tail)) = false.
Proof.
  destruct l as [|x l]; [congruence|]. intros _ H.
  cbn [forallb] in H. apply andb_true_iff in H as [Hx _].
  destruct (element_text_first x Hx) as [c [t [E [Hw Hb]]]].
  destruct l as [|y l].
  - cbn [map join]. rewrite E.
    change (String c t ++ tail) with (String c (t ++ tail)).
    now rewrite first_is_skip.
  - cbn [map]. rewrite join_cons2, E.
    change (String c t ++ ?u) with (String c (t ++ u)).
    cbn [append]. now rewrite first_is_skip.
Qed.

Lemma members_not_closing (l : list (string * jsval)) (tail : string) :
  l <> [] ->
  JSON.first_is "}"
    (JSON.skip_ws (join "," (map member_text l) ++ tail)) = false.
Proof.
  destruct l as [|[k x] l]; [congruence|]. intros _.
  destruct l as [|y l].
  - cbn [map join]. rewrite member_text_eq. now rewrite first_is_skip.
  - cbn [map]. rewrite join_cons2, append_assoc, member_text_eq.
    now rewrite first_is_skip.
Qed.

Ltac eval_eqb :=
  repeat match goal with
         | |- context [Ascii.eqb ?a ?b] =>
             let r := eval vm_compute in (Ascii.eqb a b) in
             change (Ascii.eqb a b) with r
         end;
  cbv iota.

Lemma value_text_round_trip (v : jsval) : round_trips v.
Proof.
  induction v as [| |b|n|s|l IH|l IH|f] using jsval_nested_ind;
    intros Hj fuel rest Hfuel Hrest; try discriminate;
    (destruct fuel as [|fuel]; [lia|]);
    change (JSON.value (S fuel)) with
      (JSON.value_step (JSON.elements fuel) (JSON.members fuel)).
  - reflexivity.
  - destruct b; reflexivity.
  - destruct n as [|z]; [discriminate|].
    change (element_text (JNum (Num z))) with (Number.print_int z).
    destruct (print_int_first z) as [c [t [E Hc]]].
    rewrite E. change (String c t ++ rest) with (String c (t ++ rest)).
    rewrite value_step_number by assumption.
    change (String c (t ++ rest)) with (String c t ++ rest).
    rewrite <- E. now apply number_token_print.
  - unfold JSON.value_step.
    change (element_text (JStr s) ++ rest)
      with (String JSON.dquote
              ((JSON.escape s ++ String JSON.dquote EmptyString) ++ rest)).
    rewrite skip_ws_first by reflexivity. eval_eqb.
    rewrite append_assoc.
    change (String JSON.dquote EmptyString ++ rest)
      with (String JSON.dquote rest).
    now rewrite string_body_quote.
  - cbn [json_value] in Hj.
    rewrite array_text in Hfuel |- *.
    rewrite !append_assoc.
    change ("[" ++ ?u) with (String "[" u).
    change ("]" ++ rest) with (String "]" rest).
    unfold JSON.value_step.
    rewrite skip_ws_first by reflexivity. eval_eqb.
    destruct l as [|x l].
    + cbn [map join append]. skip_delimiter. reflexivity.
    + rewrite elements_not_closing by (discriminate || assumption).
      rewrite (@elements_texts _ IH); [reflexivity|discriminate|assumption|].
      rewrite texts_length_join by discriminate.
      rewrite !length_append in Hfuel.
      cbn [String.length] in Hfuel. lia.
  - cbn [json_value] in Hj. apply andb_true_iff in Hj as [Hd Hj].
    rewrite (object_text _ Hj) in Hfuel |- *.
    rewrite !append_assoc.
    change ("{" ++ ?u) with (String "{" u).
    change ("}" ++ rest) with (String "}" rest).
    unfold JSON.value_step.
    rewrite skip_ws_first by reflexivity. eval_eqb.
    destruct l as [|x l].
    + cbn [map join append]. skip_delimiter. reflexivity.
    + rewrite members_not_closing by discriminate.
      rewrite (@members_texts _ IH); [|discriminate|assumption|].
      * now rewrite fromEntries_distinct.
      * rewrite texts_length_join by discriminate.
        rewrite !length_append in Hfuel.
        cbn [String.length] in Hfuel. lia.
Qed.

(** [JSON.parse] inverts [JSON.stringify] on the values it produces. *)
Lemma parse_text (v : jsval) :
  json_value v = true -> JSON.parse (element_text v) = Some v.
Proof.
  intros H. unfold JSON.parse.
  rewrite <- (append_nil_r (element_text v)) at 2.
  rewrite (value_text_round_trip v H) by (reflexivity || lia).
  reflexivity.
Qed.

Lemma text_starts_structure (v : jsval) :
  match v with JArr _ | JObj _ => True | _ => False end ->
  json_value v = true ->
  starts_structure (element_text v) = true.
Proof.
  destruct v as [| |b|n|s|l|l|f]; try contradiction; intros _ H.
  - reflexivity.
  - cbn [json_value] in H. apply andb_true_iff in H as [_ H].
    now rewrite (object_text _ H).
Qed.

(** C5. For every value [v] that [JSON.parse] can produce and that is an
    object, an array, a boolean or [null], hydrating what Create stores for
    [v] gives [v] back: [hydrateValue (post_param v) = v]. *)
Theorem storage_round_trip (v : jsval) :
  json_value v = true ->
  structured_or_flag v = true ->
  hydrateValue (Rest.post_param v) = v.
Proof.
  intros Hj Hs.
  destruct v as [| |b|n|s|l|l|f]; try discriminate.
  - reflexivity.
  - destruct b; reflexivity.
  - change (Rest.post_param (JArr l)) with (JSON.stringify (JArr l)).
    unfold JSON.stringify. rewrite (json_value_text _ Hj).
    unfold hydrateValue. cbn [is_number].
    rewrite text_starts_structure by (exact I || assumption).
    now rewrite parse_text.
  - change (Rest.post_param (JObj l)) with (JSON.stringify (JObj l)).
    unfold JSON.stringify. rewrite (json_value_text _ Hj).
    unfold hydrateValue. cbn [is_number].
    rewrite text_starts_structure by (exact I || assumption).
    now rewrite parse_text.
Qed.

Lemma storage_round_trip_witness :
  hydrateValue
    (Rest.post_param
       (JObj [("tags", JArr [JStr "a"; JStr "b"]); ("active", JBool true);
              ("n", JInt (-12)); ("none", JNull)]))
  = JObj [("tags", JArr [JStr "a"; JStr "b"]); ("active", JBool true);
          ("n", JInt (-12)); ("none", JNull)].
Proof.
  apply (storage_round_trip
           (JObj [("tags", JArr [JStr "a"; JStr "b"]); ("active", JBool true);
                  ("n", JInt (-12)); ("none", JNull)]));
    reflexivity.
Defined.

Lemma hydration_of_values_and_rows_witness :
  Rest.handleGet (Sqlite.engine store) "items" (Some "7") [] =
    json (JObj [ ("success", JBool true);
                 ("result",
                  JObj [("id", JInt 7); ("name", JStr "pen");
                        ("active", JBool true)]) ]).
Proof.
  pose proof
    (@hydration_of_values_and_rows (Sqlite.engine store) "items" [] "7"
       [JObj [("id", JInt 7); ("name", JStr "pen"); ("active", JInt 1)]]
       []
       (JObj [("id", JInt 7); ("name", JStr "pen"); ("active", JInt 1)])
       (Some (Num 1))
       [("id", JInt 7); ("active", JInt 1)]
       eq_refl eq_refl eq_refl ltac:(discriminate) eq_refl) as H.
  exact (proj2 (proj2 (proj2 (proj2 (proj2 (proj2 (proj2 (proj2 H)))))))).
Defined.

(** ** The reference engine reads the statements back *)

Lemma span_ident_append (a rest : string) :
  is_identifier a = true -> ends_identifier rest = true ->
  Sqlite.span_ident (a ++ rest) = (a, rest).
Proof.
  intros Ha Hr. induction a as [|c a IH]; simpl.
  - destruct rest as [|c r]; [reflexivity|]. simpl in Hr |- *.
    apply negb_true_iff in Hr. now rewrite Hr.
  - unfold is_identifier in Ha. simpl in Ha.
    apply andb_true_iff in Ha as [-> Ha]. now rewrite (IH Ha).
Qed.

Lemma parse_table_render (t rest : string) :
  is_identifier t = true ->
  Sqlite.parse_table ("`" ++ t ++ "`" ++ rest) = Some (t, rest).
Proof.
  intros Ht. unfold Sqlite.parse_table.
  rewrite strip_prefix_append, span_ident_append by (assumption || reflexivity).
  now rewrite strip_prefix_append.
Qed.

Lemma parse_conditions_render (cs : list string) :
  cs <> [] -> forallb is_identifier cs = true ->
  forall n rest,
    (List.length cs <= n)%nat ->
    strip_prefix " AND " rest = None ->
    Sqlite.parse_conditions n
      (join " AND " (map (fun c => c ++ " = ?") cs) ++ rest)
    = Some (cs, rest).
Proof.
  induction cs as [|c cs IH]; [congruence|].
  intros _ Hi n rest Hn Hrest.
  cbn [forallb] in Hi. apply andb_true_iff in Hi as [Hc Hcs].
  destruct n as [|n]; [simpl in Hn; lia|].
  cbn [Sqlite.parse_conditions].
  destruct cs as [|d cs].
  - cbn [map join]. rewrite append_assoc.
    rewrite span_ident_append by (assumption || reflexivity).
    rewrite strip_prefix_append, Hrest. reflexivity.
  - cbn [map]. change (join " AND " (?x :: ?y :: ?l))
      with (x ++ " AND " ++ join " AND " (y :: l)).
    rewrite !append_assoc.
    rewrite span_ident_append by (assumption || reflexivity).
    rewrite !strip_prefix_append.
    specialize (IH ltac:(discriminate) Hcs n rest).
    cbn [map] in IH. rewrite IH; [reflexivity| |assumption].
    simpl in Hn |- *. lia.
Qed.

Lemma conditions_length (cs : list string) (rest : string) :
  (List.length cs <=
   String.length (join " AND " (map (fun c => c ++ " = ?") cs) ++ rest))%nat.
Proof.
  induction cs as [|c cs IH]; [simpl; lia|].
  destruct cs as [|d cs].
  - cbn [map join]. rewrite !length_append. simpl. lia.
  - cbn [map] in IH |- *.
    change (join " AND " (?x :: ?y :: ?l))
      with (x ++ " AND " ++ join " AND " (y :: l)).
    rewrite !append_assoc, !length_append.
    rewrite length_append in IH.
    cbn [List.length] in IH |- *.
    change (String.length " = ?") with 4%nat.
    change (String.length " AND ") with 5%nat. lia.
Qed.

Lemma parse_where_render (cs : list string) (rest : string) :
  forallb is_identifier cs = true ->
  strip_prefix " AND " rest = None ->
  strip_prefix " WHERE " rest = None ->
  Sqlite.parse_where (Sqlite.render_where cs ++ rest) = Some (cs, rest).
Proof.
  intros Hi Ha Hw. unfold Sqlite.parse_where, Sqlite.render_where.
  destruct cs as [|c cs].
  - simpl append. now rewrite Hw.
  - rewrite append_assoc, strip_prefix_append.
    apply parse_conditions_render; try assumption; [discriminate|].
    apply conditions_length.
Qed.

Lemma parse_tail_render (c : string) (d p : bool) :
  is_identifier c = true ->
  Sqlite.parse_tail
    (" ORDER BY " ++ c ++ (if d then " DESC" else " ASC")
     ++ (if p then " LIMIT ? OFFSET ?" else EmptyString))
  = Some (c, d, p).
Proof.
  intros Hc. unfold Sqlite.parse_tail.
  rewrite strip_prefix_append.
  rewrite span_ident_append by (assumption || now destruct d).
  destruct d, p; reflexivity.
Qed.

Lemma prepare_select_render (st : Sqlite.select) :
  is_identifier (Sqlite.s_table st) = true ->
  forallb is_identifier (Sqlite.s_where st) = true ->
  is_identifier (Sqlite.s_order st) = true ->
  Sqlite.prepare_select (Sqlite.render_select st) = Some st.
Proof.
  intros Ht Hw Ho. destruct st as [t w o d p]. simpl in Ht, Hw, Ho.
  unfold Sqlite.prepare_select, Sqlite.render_select.
  cbn [Sqlite.s_table Sqlite.s_where Sqlite.s_order Sqlite.s_desc
       Sqlite.s_paged].
  change ("SELECT * FROM `" ++ ?u) with ("SELECT * FROM " ++ "`" ++ u).
  rewrite strip_prefix_append.
  rewrite parse_table_render by assumption.
  rewrite parse_where_render by (assumption || reflexivity).
  now rewrite parse_tail_render.
Qed.

Lemma prepare_scoped_render (keyword t : string) (cs : list string) :
  is_identifier t = true ->
  forallb is_identifier cs = true ->
  Sqlite.prepare_scoped keyword (Sqlite.render_scoped keyword t cs)
  = Some (t, cs).
Proof.
  intros Ht Hw. unfold Sqlite.prepare_scoped, Sqlite.render_scoped.
  rewrite strip_prefix_append.
  rewrite parse_table_render by assumption.
  rewrite <- (append_nil_r (Sqlite.render_where cs)).
  rewrite parse_where_render by (assumption || reflexivity).
  reflexivity.
Qed.


(** The engine reads the [SELECT] and the [COUNT] statement of a request
    with the same table and the same [WHERE] columns. *)
Lemma prepared_statements_share_where
  (tableName : string) (id : option string) (sp : Rest.searchParams) :
  Sqlite.prepare_select (Rest.select_query tableName id sp)
    = Some (select_statement tableName id sp) /\
  Sqlite.prepare_scoped "SELECT COUNT(*) as total FROM "
    (Rest.countQuery tableName id sp)
    = Some (Sqlite.s_table (select_statement tableName id sp),
            Sqlite.s_where (select_statement tableName id sp)).
Proof.
  split.
  - rewrite select_query_render. apply prepare_select_render;
      cbn [Sqlite.s_table Sqlite.s_where Sqlite.s_order select_statement].
    + apply sanitizeIdentifier_identifier.
    + apply where_columns_identifiers.
    + apply sanitizeIdentifier_identifier.
  - rewrite countQuery_render. apply prepare_scoped_render.
    + apply sanitizeIdentifier_identifier.
    + apply where_columns_identifiers.
Qed.

(** ** Id lookups on the reference engine *)

Section IdLookup.

Import Rest.

Lemma sp_get_filters (key : string) (sp : searchParams) :
  Js.mem key control_keys = true -> sp_get key (filters sp) = None.
Proof.
  intros Hk. induction sp as [|[k v] sp IH]; [reflexivity|].
  unfold filters in *. cbn [filter fst].
  destruct (Js.mem k control_keys) eqn:E; cbn [negb]; [assumption|].
  cbn [sp_get]. destruct (String.eqb_spec k key) as [->|_]; [congruence|].
  assumption.
Qed.

Lemma filters_idempotent (sp : searchParams) : filters (filters sp) = filters sp.
Proof.
  unfold filters. induction sp as [|[k v] sp IH]; [reflexivity|].
  cbn [filter fst]. destruct (Js.mem k control_keys) eqn:E; cbn [negb].
  - assumption.
  - cbn [filter fst]. rewrite E. cbn [negb]. now rewrite IH.
Qed.

Variable tableName : string.
Variable id : option string.
Variable sp : searchParams.

Lemma where_columns_without_controls :
  where_columns tableName id (without_controls sp)
  = where_columns tableName id sp.
Proof.
  unfold where_columns, without_controls. now rewrite filters_idempotent.
Qed.

Lemma filter_params_without_controls :
  filter_params id (without_controls sp) = filter_params id sp.
Proof.
  unfold filter_params, without_controls. now rewrite filters_idempotent.
Qed.

Lemma paginated_without_controls : paginated (without_controls sp) = false.
Proof.
  unfold paginated, limit_of, without_controls.
  now rewrite sp_get_filters.
Qed.

Lemma select_params_without_controls :
  select_params id (without_controls sp) = filter_params id sp.
Proof.
  unfold select_params.
  rewrite paginated_without_controls, filter_params_without_controls.
  apply List.app_nil_r.
Qed.

Lemma idColumn_sanitized : sanitizeIdentifier (idColumn tableName) = idColumn tableName.
Proof. unfold idColumn. now destruct (String.eqb tableName "quizzes"). Qed.

Lemma select_statement_without_controls :
  select_statement tableName id (without_controls sp) =
  {| Sqlite.s_table := sanitizeIdentifier tableName;
     Sqlite.s_where := where_columns tableName id sp;
     Sqlite.s_order := idColumn tableName;
     Sqlite.s_desc := false;
     Sqlite.s_paged := false |}.
Proof.
  unfold select_statement.
  rewrite where_columns_without_controls, paginated_without_controls.
  unfold sortBy_of, order_of, without_controls.
  rewrite !sp_get_filters by reflexivity.
  cbn [or_else]. now rewrite idColumn_sanitized.
Qed.

Lemma where_params_length :
  List.length (where_columns tableName id sp)
  = List.length (filter_params id sp).
Proof.
  unfold where_columns, filter_params.
  rewrite !length_app, !length_map. now destruct (given id).
Qed.

Lemma all_select (data : Sqlite.database) (sp' : searchParams) :
  Sqlite.all data (select_query tableName id sp') (select_params id sp')
  = Sqlite.run_select data (select_statement tableName id sp')
      (select_params id sp').
Proof.
  unfold Sqlite.all. rewrite select_query_render.
  rewrite prepare_select_render; [reflexivity| | |];
    cbn [Sqlite.s_table Sqlite.s_where Sqlite.s_order select_statement].
  - apply sanitizeIdentifier_identifier.
  - apply where_columns_identifiers.
  - apply sanitizeIdentifier_identifier.
Qed.

End IdLookup.

Lemma sort_rows_short (c : string) (d : bool)
  (l : list (list (string * jsval))) :
  (List.length l <= 1)%nat -> Sqlite.sort_rows c d l = l.
Proof.
  destruct l as [|x [|y l]]; simpl; intros H; try reflexivity. lia.
Qed.

Lemma cut_short (l : Z) (rows : list (list (string * jsval))) :
  0 < l -> (List.length rows <= 1)%nat -> Sqlite.cut l 0 rows = rows.
Proof.
  intros Hl Hr. unfold Sqlite.cut. simpl skipn.
  destruct (Z.ltb_spec l 0); [lia|].
  apply firstn_all2. lia.
Qed.

Lemma firstn_length_app (A : Type) (l1 l2 : list A) :
  firstn (List.length l1) (l1 ++ l2) = l1.
Proof. induction l1; simpl; congruence. Qed.

Lemma skipn_length_app (A : Type) (l1 l2 : list A) :
  skipn (List.length l1) (l1 ++ l2) = l2.
Proof. induction l1; simpl; congruence. Qed.

Lemma run_select_id_lookup (data : Sqlite.database) (t : Sqlite.table)
  (tableName i : string) (sp : Rest.searchParams) :
  i <> EmptyString ->
  Sqlite.find_table (Rest.sanitizeIdentifier tableName) data = Some t ->
  Sqlite.known_columns (Sqlite.t_columns t)
    [Rest.sanitizeIdentifier (Rest.sortBy_of tableName sp)] = true ->
  (List.length
     (Sqlite.matching t (where_columns tableName (Some i) sp)
        (Rest.filter_params (Some i) sp)) <= 1)%nat ->
  Rest.paginated sp = false \/ Rest.page_of sp = Num 1 ->
  Sqlite.run_select data (select_statement tableName (Some i) sp)
    (Rest.select_params (Some i) sp)
  = Sqlite.run_select data
      (select_statement tableName (Some i) (without_controls sp))
      (Rest.filter_params (Some i) sp).
Proof.
  intros Hi Hfind Hsort Hone Hpage.
  rewrite select_statement_without_controls.
  unfold Sqlite.run_select, select_statement.
  cbn [Sqlite.s_table Sqlite.s_where Sqlite.s_order Sqlite.s_desc
       Sqlite.s_paged].
  rewrite Hfind.
  assert (Hw : where_columns tableName (Some i) sp =
               Rest.idColumn tableName ::
               map (fun kv => Rest.sanitizeIdentifier (fst kv))
                 (Rest.filters sp)).
  { unfold where_columns. destruct i; [contradiction|]. reflexivity. }
  assert (Hk : Sqlite.known_columns (Sqlite.t_columns t)
                 (Rest.sanitizeIdentifier (Rest.sortBy_of tableName sp)
                  :: where_columns tableName (Some i) sp)
               = Sqlite.known_columns (Sqlite.t_columns t)
                   (Rest.idColumn tableName
                    :: where_columns tableName (Some i) sp)).
  { rewrite Hw. unfold Sqlite.known_columns in *. cbn [forallb] in *.
    rewrite andb_true_r in Hsort. rewrite Hsort. cbn [andb].
    match goal with |- (?a && ?b)%bool = _ => destruct a; reflexivity end. }
  rewrite Hk.
  destruct (negb _); [reflexivity|].
  rewrite where_params_length.
  unfold Rest.select_params.
  rewrite firstn_length_app, skipn_length_app, firstn_all, skipn_all.
  rewrite length_app, !sort_rows_short by assumption.
  replace (List.length (Rest.filter_params (Some i) sp) +
           List.length
             (if Rest.paginated sp
              then [JNum (Rest.limit_of sp); JNum (Rest.offset_of sp)]
              else []) <?
           List.length (Rest.filter_params (Some i) sp))%nat
    with false by (symmetry; apply Nat.ltb_ge; lia).
  rewrite Nat.ltb_irrefl.
  destruct Hpage as [Hp|Hp].
  - now rewrite Hp.
  - destruct (Rest.paginated sp) eqn:Hpag; [|reflexivity].
    unfold Rest.offset_of. rewrite Hp.
    unfold Rest.paginated in Hpag.
    destruct (Rest.limit_of sp) as [|l]; [discriminate|].
    cbn [Number.sub Number.mul Number.gtb] in Hpag |- *.
    apply Z.ltb_lt in Hpag.
    change ((1 - 1) * l) with 0.
    now rewrite cut_short.
Qed.

(** On the reference engine, with [?limit=1&page=2] the lookup of the
    existing row 7 answers 404, and without these parameters it answers the
    row: the sort and pagination parameters do change the outcome of an id
    lookup. *)
Lemma id_lookup_counterexample :
  ~ (forall (data : Sqlite.database) (tableName : string)
       (id : option string) (sp : Rest.searchParams),
       Rest.given id = true ->
       Rest.handleGet (Sqlite.engine data) tableName id sp =
       Rest.handleGet (Sqlite.engine data) tableName id
         (without_controls sp)).
Proof.
  intros H.
  specialize (H store "items" (Some "7") [("limit", "1"); ("page", "2")]
                eq_refl).
  vm_compute in H. discriminate.
Qed.

(** When the limit and the offset leave the first match in place, they do
    not change the outcome on the reference engine: when at most one row of
    the table matches, the sort column is a column of the table, and the
    request is unpaginated or asks for page 1, the lookup answers what the
    request without the sort and pagination parameters answers. *)
Theorem id_lookup_without_controls
  (data : Sqlite.database) (t : Sqlite.table) (tableName i : string)
  (sp : Rest.searchParams) :
  i <> EmptyString ->
  Sqlite.find_table (Rest.sanitizeIdentifier tableName) data = Some t ->
  Sqlite.known_columns (Sqlite.t_columns t)
    [Rest.sanitizeIdentifier (Rest.sortBy_of tableName sp)] = true ->
  (List.length
     (Sqlite.matching t (where_columns tableName (Some i) sp)
        (Rest.filter_params (Some i) sp)) <= 1)%nat ->
  Rest.paginated sp = false \/ Rest.page_of sp = Num 1 ->
  Sqlite.s_where (select_statement tableName (Some i) sp) =
    Rest.idColumn tableName ::
    map (fun kv => Rest.sanitizeIdentifier (fst kv)) (Rest.filters sp) /\
  Rest.filter_params (Some i) sp =
    JStr i :: map (fun kv => JStr (snd kv)) (Rest.filters sp) /\
  Rest.handleGet (Sqlite.engine data) tableName (Some i) sp =
  Rest.handleGet (Sqlite.engine data) tableName (Some i)
    (without_controls sp).
Proof.
  intros Hi Hfind Hsort Hone Hpage.
  split; [|split].
  - cbn [select_statement Sqlite.s_where]. unfold where_columns.
    destruct i; [contradiction|]. reflexivity.
  - unfold Rest.filter_params. destruct i; [contradiction|]. reflexivity.
  - unfold Rest.handleGet. cbn [d1_all Sqlite.engine].
    rewrite !all_select.
    rewrite select_params_without_controls.
    rewrite (run_select_id_lookup data tableName sp Hi Hfind Hsort Hone Hpage).
    destruct (Sqlite.run_select _ _ _); [reflexivity|].
    destruct i; [contradiction|]. reflexivity.
Qed.

Lemma id_lookup_without_controls_witness :
  Rest.handleGet (Sqlite.engine store) "items" (Some "7")
    [("sort_by", "name"); ("order", "desc"); ("limit", "5"); ("page", "1");
     ("active", "1")]
  = Rest.handleGet (Sqlite.engine store) "items" (Some "7") [("active", "1")].
Proof.
  apply (@id_lookup_without_controls store items "items" "7"
           [("sort_by", "name"); ("order", "desc"); ("limit", "5");
            ("page", "1"); ("active", "1")]).
  - discriminate.
  - reflexivity.
  - reflexivity.
  - vm_compute. lia.
  - right. reflexivity.
Defined.

(** * Further properties *)

(** ** The sanitizer *)

Lemma filter_chars_append (p : ascii -> bool) (a b : string) :
  filter_chars p (a ++ b) = filter_chars p a ++ filter_chars p b.
Proof.
  induction a as [|c a IH]; simpl; [reflexivity|].
  destruct (p c); simpl; now rewrite IH.
Qed.

Lemma filter_chars_length (p : ascii -> bool) (s : string) :
  (String.length (filter_chars p s) <= String.length s)%nat.
Proof.
  induction s as [|c s IH]; simpl; [lia|]. destruct (p c); simpl; lia.
Qed.

(** X1. Sanitizing twice is sanitizing once; a name is left unchanged
    exactly when it is made of characters of [A-Za-z0-9_]; the sanitizer
    distributes over concatenation and never lengthens a name. *)
Theorem sanitizeIdentifier_algebra (a b : string) :
  Rest.sanitizeIdentifier (Rest.sanitizeIdentifier a)
    = Rest.sanitizeIdentifier a /\
  (Rest.sanitizeIdentifier a = a <-> is_identifier a = true) /\
  Rest.sanitizeIdentifier (a ++ b)
    = Rest.sanitizeIdentifier a ++ Rest.sanitizeIdentifier b /\
  (String.length (Rest.sanitizeIdentifier a) <= String.length a)%nat.
Proof.
  unfold Rest.sanitizeIdentifier, is_identifier. repeat split.
  - apply filter_chars_fixpoint, all_chars_filter.
  - intros E. rewrite <- E. apply all_chars_filter.
  - apply filter_chars_fixpoint.
  - apply filter_chars_append.
  - apply filter_chars_length.
Qed.

(** ** The texts of the write statements *)

Lemma identifier_write_chars (s : string) :
  is_identifier s = true -> all_chars write_char s = true.
Proof.
  apply all_chars_weaken. intros c Hc. unfold write_char. now rewrite Hc.
Qed.

Lemma sanitized_write_chars (s : string) :
  all_chars write_char (Rest.sanitizeIdentifier s) = true.
Proof. apply identifier_write_chars, sanitizeIdentifier_identifier. Qed.

Lemma idColumn_write_chars (t : string) :
  all_chars write_char (Rest.idColumn t) = true.
Proof. apply identifier_write_chars, idColumn_identifier. Qed.

Lemma sanitizeKeyword_write_chars (t : string) :
  all_chars write_char (Rest.sanitizeKeyword t) = true.
Proof.
  unfold Rest.sanitizeKeyword.
  now rewrite !all_chars_append, sanitized_write_chars.
Qed.

Lemma columns_write_chars (props : list (string * jsval)) :
  Forall (fun s => all_chars write_char s = true) (Rest.columns_of props).
Proof.
  apply Forall_forall. intros c Hc. unfold Rest.columns_of in Hc.
  apply in_map_iff in Hc as [k [<- _]]. apply sanitized_write_chars.
Qed.

(** X2. Whatever the table name and the keys of the payload, every
    character of the [INSERT], [UPDATE] and [DELETE] statement texts is a
    character of [A-Za-z0-9_] or one of the template's space, backquote,
    equal sign, question mark, parentheses and comma. *)
Theorem write_statements_chars
  (tableName : string) (props : list (string * jsval)) :
  all_chars write_char (Rest.insert_query tableName props) = true /\
  all_chars write_char (Rest.update_query tableName props) = true /\
  all_chars write_char (Rest.delete_query tableName) = true.
Proof.
  split; [|split].
  - unfold Rest.insert_query. rewrite !all_chars_append.
    rewrite sanitizeKeyword_write_chars.
    rewrite (all_chars_join write_char ", " eq_refl (columns_write_chars props)).
    rewrite all_chars_join; [reflexivity|reflexivity|].
    apply Forall_forall. intros x Hx. apply in_map_iff in Hx as [y [<- _]].
    reflexivity.
  - unfold Rest.update_query. rewrite !all_chars_append.
    rewrite sanitizeKeyword_write_chars, idColumn_write_chars.
    rewrite all_chars_join; [reflexivity|reflexivity|].
    apply Forall_forall. intros x Hx. apply in_map_iff in Hx as [y [<- Hy]].
    rewrite all_chars_append.
    rewrite (proj1 (Forall_forall _ _) (columns_write_chars props) y Hy).
    reflexivity.
  - unfold Rest.delete_query. rewrite !all_chars_append.
    now rewrite sanitizeKeyword_write_chars, idColumn_write_chars.
Qed.

(** ** Placeholders and parameters *)

Lemma count_char_append (c : ascii) (a b : string) :
  count_char c (a ++ b) = (count_char c a + count_char c b)%nat.
Proof. induction a as [|d a IH]; simpl; [reflexivity|]. rewrite IH. lia. Qed.

Lemma identifier_no_placeholder (s : string) :
  is_identifier s = true -> placeholders s = 0%nat.
Proof.
  unfold is_identifier, placeholders.
  induction s as [|c s IH]; simpl; [reflexivity|].
  intros H. apply andb_true_iff in H as [Hc Hs]. rewrite (IH Hs).
  destruct (Ascii.eqb_spec c "?") as [->|_]; [discriminate|reflexivity].
Qed.

Lemma placeholders_append (a b : string) :
  placeholders (a ++ b) = (placeholders a + placeholders b)%nat.
Proof. apply count_char_append. Qed.

Lemma placeholders_join (sep : string) (l : list string) (n : nat) :
  placeholders sep = 0%nat ->
  Forall (fun s => placeholders s = n) l ->
  placeholders (join sep l) = (n * List.length l)%nat.
Proof.
  intros Hsep H.
  induction H as [|x l Hx Hl IH]; [unfold placeholders; simpl; lia|].
  destruct l as [|y l].
  - simpl. rewrite Hx. lia.
  - change (join sep (x :: y :: l)) with (x ++ sep ++ join sep (y :: l)).
    rewrite !placeholders_append, Hx, Hsep, IH. simpl List.length. lia.
Qed.

Lemma placeholders_conditions (cs : list string) :
  forallb is_identifier cs = true ->
  placeholders (Sqlite.render_where cs) = List.length cs.
Proof.
  intros H. unfold Sqlite.render_where. destruct cs as [|c cs]; [reflexivity|].
  rewrite placeholders_append.
  rewrite (@placeholders_join " AND " _ 1%nat); [|reflexivity|].
  - rewrite length_map. change (placeholders " WHERE ") with 0%nat. lia.
  - apply Forall_forall. intros x Hx. apply in_map_iff in Hx as [y [<- Hy]].
    rewrite placeholders_append, identifier_no_placeholder; [reflexivity|].
    now apply (proj1 (forallb_forall _ _) H).
Qed.

Lemma placeholders_keyword (t : string) :
  placeholders (Rest.sanitizeKeyword t) = 0%nat.
Proof.
  unfold Rest.sanitizeKeyword. rewrite !placeholders_append.
  now rewrite (identifier_no_placeholder _ (sanitizeIdentifier_identifier t)).
Qed.

Lemma countParams_filter_params (id : option string) (sp : Rest.searchParams) :
  Rest.countParams id sp = Rest.filter_params id sp.
Proof.
  unfold Rest.countParams, Rest.select_params.
  destruct (Rest.paginated sp); [apply drop_last2_app|apply List.app_nil_r].
Qed.

(** X3. In each of the five statements the handlers prepare, the number of
    [?] placeholders in the text is the number of parameters bound to it. *)
Theorem placeholders_match_parameters
  (tableName : string) (id : option string) (sp : Rest.searchParams)
  (row : string) (props : list (string * jsval)) :
  placeholders (Rest.select_query tableName id sp)
    = List.length (Rest.select_params id sp) /\
  placeholders (Rest.countQuery tableName id sp)
    = List.length (Rest.countParams id sp) /\
  placeholders (Rest.insert_query tableName props)
    = List.length (Rest.post_params props) /\
  placeholders (Rest.update_query tableName props)
    = List.length (Rest.update_params props ++ [JStr row])%list /\
  placeholders (Rest.delete_query tableName) = List.length [JStr row].
Proof.
  assert (Hw := placeholders_conditions _
                  (where_columns_identifiers tableName id sp)).
  assert (Hc : forall l : list string,
             Forall (fun s => is_identifier s = true) l ->
             placeholders (join ", " l) = 0%nat).
  { intros l Hl. rewrite (@placeholders_join ", " l 0%nat); [lia|reflexivity|].
    eapply Forall_impl; [|exact Hl]. intros s. apply identifier_no_placeholder. }
  assert (Hcols : Forall (fun s => is_identifier s = true)
                    (Rest.columns_of props)).
  { apply Forall_forall. intros c Hin. unfold Rest.columns_of in Hin.
    apply in_map_iff in Hin as [k [<- _]]. apply sanitizeIdentifier_identifier. }
  repeat split.
  - rewrite select_query_render. unfold Sqlite.render_select, select_statement.
    cbn [Sqlite.s_table Sqlite.s_where Sqlite.s_order Sqlite.s_desc
         Sqlite.s_paged].
    rewrite !placeholders_append, Hw.
    rewrite (identifier_no_placeholder _
               (sanitizeIdentifier_identifier tableName)).
    rewrite (identifier_no_placeholder _
               (sanitizeIdentifier_identifier (Rest.sortBy_of tableName sp))).
    unfold Rest.select_params.
    rewrite length_app, <- (where_params_length tableName).
    destruct (String.eqb (Rest.order_of sp) "DESC"), (Rest.paginated sp);
      cbn; lia.
  - rewrite countQuery_render. unfold Sqlite.render_scoped.
    rewrite !placeholders_append, Hw.
    rewrite (identifier_no_placeholder _
               (sanitizeIdentifier_identifier tableName)).
    rewrite countParams_filter_params.
    rewrite <- (where_params_length tableName). cbn. lia.
  - unfold Rest.insert_query. rewrite !placeholders_append.
    rewrite placeholders_keyword, (Hc _ Hcols).
    rewrite (@placeholders_join ", " _ 1%nat); [|reflexivity|].
    + unfold Rest.post_params. rewrite !length_map. cbn. lia.
    + apply Forall_forall. intros x Hx. apply in_map_iff in Hx as [y [<- _]].
      reflexivity.
  - unfold Rest.update_query. rewrite !placeholders_append.
    rewrite placeholders_keyword.
    rewrite (identifier_no_placeholder _ (idColumn_identifier tableName)).
    rewrite (@placeholders_join ", " _ 1%nat); [|reflexivity|].
    + unfold Rest.update_params. rewrite length_app, !length_map. cbn. lia.
    + apply Forall_forall. intros x Hx. apply in_map_iff in Hx as [y [<- Hy]].
      rewrite placeholders_append.
      rewrite identifier_no_placeholder; [reflexivity|].
      exact (proj1 (Forall_forall _ _) Hcols y Hy).
  - unfold Rest.delete_query. rewrite !placeholders_append.
    rewrite placeholders_keyword.
    now rewrite (identifier_no_placeholder _ (idColumn_identifier tableName)).
Qed.

(** ** The router *)

Lemma slash_free_append (a b : string) :
  slash_free (a ++ b) = (slash_free a && slash_free b)%bool.
Proof. apply all_chars_append. Qed.

Lemma split_path_segments (s seg : string) :
  slash_free seg = true ->
  Forall (fun x => segment x = true) (Rest.split_path s seg).
Proof.
  revert seg. induction s as [|c s IH]; intros seg Hseg; simpl.
  - unfold segment. destruct (nonempty seg) eqn:E; constructor; auto.
    now rewrite E, Hseg.
  - destruct (Ascii.eqb_spec c "/") as [->|Hc].
    + apply Forall_app. split; [|now apply IH].
      unfold segment. destruct (nonempty seg) eqn:E; constructor; auto.
      now rewrite E, Hseg.
    + apply IH. rewrite slash_free_append, Hseg.
      unfold slash_free. simpl.
      destruct (Ascii.eqb_spec c "/"); [contradiction|reflexivity].
Qed.

Lemma split_path_run (a rest seg : string) :
  slash_free a = true ->
  Rest.split_path (a ++ rest) seg = Rest.split_path rest (seg ++ a).
Proof.
  revert seg. induction a as [|c a IH]; intros seg Ha; simpl.
  - now rewrite append_nil_r.
  - unfold slash_free in Ha. simpl in Ha.
    apply andb_true_iff in Ha as [Hc Ha]. apply negb_true_iff in Hc.
    rewrite Hc, (IH _ Ha), append_assoc. reflexivity.
Qed.

Lemma split_path_slash (r seg : string) :
  Rest.split_path (String "/" r) seg =
  ((if nonempty seg then [seg] else []) ++ Rest.split_path r EmptyString)%list.
Proof. reflexivity. Qed.

Lemma split_path_joined (segs : list string) (seg : string) :
  segment seg = true ->
  Forall (fun x => segment x = true) segs ->
  Rest.split_path (join "/" (seg :: segs)) EmptyString = seg :: segs.
Proof.
  intros Hseg H. revert seg Hseg.
  induction H as [|x segs Hx Hs IH]; intros seg Hseg;
    apply andb_true_iff in Hseg as [Hn Hf].
  - cbn [join]. rewrite <- (append_nil_r seg) at 1.
    rewrite split_path_run by assumption.
    cbn [append Rest.split_path]. now rewrite Hn.
  - change (join "/" (seg :: x :: segs))
      with (seg ++ String "/" (join "/" (x :: segs))).
    rewrite split_path_run by assumption.
    cbn [append]. rewrite split_path_slash, Hn, (IH x Hx). reflexivity.
Qed.

(** X5. The segments the router reads off a path are never empty and hold
    no slash; and a path written as [/s1/s2/.../sn] with such segments
    reads back as exactly [s1, ..., sn]. *)
Theorem split_path_round_trip (pathname : string) (segs : list string) :
  Forall (fun x => segment x = true) segs ->
  Forall (fun x => segment x = true) (Rest.split_path pathname EmptyString) /\
  Rest.split_path (join "/" (EmptyString :: segs)) EmptyString = segs.
Proof.
  intros H. split; [now apply split_path_segments|].
  destruct H as [|x segs Hx Hs]; [reflexivity|].
  change (join "/" (EmptyString :: x :: segs))
    with (String "/" (join "/" (x :: segs))).
  rewrite split_path_slash. now apply split_path_joined.
Qed.

Lemma split_path_round_trip_witness :
  Rest.split_path "/rest/items/7" EmptyString = ["rest"; "items"; "7"].
Proof.
  apply (@split_path_round_trip EmptyString ["rest"; "items"; "7"]).
  repeat constructor.
Defined.

(** X6. A path with fewer than two segments is answered 400 "Invalid path"
    for every method, query string and body, and the engine is not
    consulted. *)
Theorem router_short_path
  (db : D1) (method pathname : string) (sp : Rest.searchParams)
  (data : jsval) :
  (List.length (Rest.split_path pathname EmptyString) < 2)%nat ->
  Rest.handleRest db method pathname sp data =
    Rest.plain_error
      "Invalid path. Expected format: /rest/{tableName}/{id?}" 400.
Proof.
  intros H. unfold Rest.handleRest.
  destruct (Rest.split_path pathname EmptyString) as [|a [|b l]];
    try reflexivity.
  simpl in H. lia.
Qed.

Lemma router_short_path_witness :
  Rest.handleRest (Sqlite.engine store) "DELETE" "//rest/" [] JNull =
    Rest.plain_error
      "Invalid path. Expected format: /rest/{tableName}/{id?}" 400.
Proof.
  apply (@router_short_path (Sqlite.engine store) "DELETE" "//rest/" [] JNull).
  vm_compute. lia.
Defined.

(** X7. On a path of exactly two segments, mount and table, [PUT], [PATCH]
    and [DELETE] are answered 400 "ID is required", whatever the engine and
    the body: no statement is prepared. *)
Theorem router_requires_id
  (db : D1) (pathname mount tableName : string) (sp : Rest.searchParams)
  (data : jsval) :
  Rest.split_path pathname EmptyString = [mount; tableName] ->
  Rest.handleRest db "PUT" pathname sp data =
    Rest.plain_error "ID is required for updates" 400 /\
  Rest.handleRest db "PATCH" pathname sp data =
    Rest.plain_error "ID is required for updates" 400 /\
  Rest.handleRest db "DELETE" pathname sp data =
    Rest.plain_error "ID is required for deletion" 400.
Proof.
  intros H. unfold Rest.handleRest. rewrite H. repeat split.
Qed.

Lemma router_requires_id_witness :
  Rest.handleRest (Sqlite.engine store) "DELETE" "/rest/items/" [] JNull =
    Rest.plain_error "ID is required for deletion" 400.
Proof.
  apply (@router_requires_id (Sqlite.engine store) "/rest/items/" "rest"
           "items" [] JNull eq_refl).
Defined.

(** X8. On a path of at least two segments, a method other than [GET],
    [POST], [PUT], [PATCH] and [DELETE] is answered 405 "Method not
    allowed", whatever the engine, the table and the body. *)
Theorem router_method_not_allowed
  (db : D1) (method pathname : string) (sp : Rest.searchParams)
  (data : jsval) :
  known_method method = false ->
  (2 <= List.length (Rest.split_path pathname EmptyString))%nat ->
  Rest.handleRest db method pathname sp data =
    Rest.plain_error "Method not allowed" 405.
Proof.
  intros Hm Hp. unfold Rest.handleRest.
  destruct (Rest.split_path pathname EmptyString) as [|a [|b l]];
    [simpl in Hp; lia|simpl in Hp; lia|].
  unfold known_method, Js.mem in Hm. cbn [existsb] in Hm.
  repeat (apply orb_false_iff in Hm as [?E Hm]).
  now rewrite E, E0, E1, E2, E3.
Qed.

Lemma router_method_not_allowed_witness :
  Rest.handleRest (Sqlite.engine store) "get" "/rest/items/7" [] JNull =
    Rest.plain_error "Method not allowed" 405.
Proof.
  apply (@router_method_not_allowed (Sqlite.engine store) "get"
           "/rest/items/7" [] JNull eq_refl).
  vm_compute. lia.
Defined.

(** X9. On a path whose segments are a mount, a table, an id and anything
    after, the router hands the table and the id to the handler of the
    method: the mount and the segments after the id play no part, [PUT] and
    [PATCH] are the same update, and [POST] ignores the id. *)
Theorem router_dispatch
  (db : D1) (pathname mount tableName id : string) (rest : list string)
  (sp : Rest.searchParams) (data : jsval) :
  Rest.split_path pathname EmptyString = mount :: tableName :: id :: rest ->
  Rest.handleRest db "GET" pathname sp data =
    Rest.handleGet db tableName (Some id) sp /\
  Rest.handleRest db "POST" pathname sp data =
    Rest.handlePost db tableName data /\
  Rest.handleRest db "PUT" pathname sp data =
    Rest.handleUpdate db tableName id data /\
  Rest.handleRest db "PATCH" pathname sp data =
    Rest.handleUpdate db tableName id data /\
  Rest.handleRest db "DELETE" pathname sp data =
    Rest.handleDelete db tableName id.
Proof.
  intros H.
  pose proof (split_path_segments pathname EmptyString eq_refl) as Hs.
  rewrite H in Hs.
  apply Forall_inv_tail, Forall_inv_tail, Forall_inv in Hs.
  apply andb_true_iff in Hs as [Hn _].
  unfold Rest.handleRest. rewrite H. cbn [nth_error].
  unfold Rest.given, Rest.id_text. rewrite Hn. repeat split.
Qed.

Lemma router_dispatch_witness :
  Rest.handleRest (Sqlite.engine store) "PATCH" "/api/v2//items/7/x/y" []
    (JObj [("name", JStr "nib")])
  = Rest.handleUpdate (Sqlite.engine store) "v2" "items"
      (JObj [("name", JStr "nib")]).
Proof.
  apply (@router_dispatch (Sqlite.engine store) "/api/v2//items/7/x/y" "api"
           "v2" "items" ["7"; "x"; "y"] [] (JObj [("name", JStr "nib")])
           eq_refl).
Defined.

(** ** The outcomes of a read *)

(** X10. An id lookup answers 404 "Not Found" exactly when the engine
    returns no row, 500 with the engine's message exactly when the engine
    raises, and otherwise 200 with the first row hydrated, the other rows
    ignored.  The count statement is never run: two engines that answer the
    [SELECT] alike get the same answer. *)
Theorem id_lookup_outcome
  (db db' : D1) (tableName id : string) (sp : Rest.searchParams) :
  id <> EmptyString ->
  d1_all db' (Rest.select_query tableName (Some id) sp)
    (Rest.select_params (Some id) sp)
  = d1_all db (Rest.select_query tableName (Some id) sp)
      (Rest.select_params (Some id) sp) ->
  let answer := Rest.handleGet db tableName (Some id) sp in
  let found :=
    d1_all db (Rest.select_query tableName (Some id) sp)
      (Rest.select_params (Some id) sp) in
  (answer = Rest.failure "Not Found" 404 <-> found = inr []) /\
  (status answer = 500 <->
   exists message, found = inl message /\
                   answer = Rest.failure message 500) /\
  (forall row others,
     found = inr (row :: others) ->
     answer =
       json (JObj [("success", JBool true); ("result", hydrateRow row)])) /\
  Rest.handleGet db' tableName (Some id) sp = answer.
Proof.
  intros Hid Hsame answer found. subst answer found.
  unfold Rest.handleGet. rewrite Hsame.
  assert (Hg : Rest.given (Some id) = true)
    by (destruct id; [contradiction|reflexivity]).
  rewrite Hg.
  destruct (d1_all db _ _) as [message|[|row others]].
  - repeat split; try discriminate.
    + intros _. now exists message.
  - repeat split; try discriminate.
    intros [message [H _]]. discriminate.
  - repeat split; try discriminate.
    + intros [message [H _]]. discriminate.
    + intros r o H. now inversion H.
Qed.

Lemma id_lookup_outcome_witness :
  Rest.handleGet (Sqlite.engine store) "items" (Some "8") []
  = Rest.failure "Not Found" 404.
Proof.
  apply (@id_lookup_outcome (Sqlite.engine store) (Sqlite.engine store)
           "items" "8" []); first [discriminate|reflexivity].
Defined.

(** X11. A collection read answers 200 or 500 and nothing else: 500 with
    the engine's message exactly when the [SELECT] raises or, the [SELECT]
    having returned, the [COUNT] raises; otherwise 200 with every returned
    row hydrated, an empty result included, and a total of 0 when the
    [COUNT] returns no row. *)
Theorem collection_outcome
  (db : D1) (tableName : string) (sp : Rest.searchParams) :
  let answer := Rest.handleGet db tableName None sp in
  let found :=
    d1_all db (Rest.select_query tableName None sp)
      (Rest.select_params None sp) in
  let counted :=
    d1_first db (Rest.countQuery tableName None sp)
      (Rest.countParams None sp) in
  (status answer = 200 \/ status answer = 500) /\
  (status answer = 500 <->
   exists message,
     answer = Rest.failure message 500 /\
     (found = inl message \/
      exists rows, found = inr rows /\ counted = inl message)) /\
  (status answer = 200 <->
   exists rows total,
     found = inr rows /\
     (counted = inr (Some total) \/ (counted = inr None /\ total = Num 0)) /\
     answer =
       json (collection_body (map hydrateRow rows)
               (Rest.pagination sp total))).
Proof.
  intros answer found counted. subst answer found counted.
  unfold Rest.handleGet. cbn [Rest.given].
  destruct (d1_all db _ _) as [message|rows].
  - split; [now right|]. split; split; try discriminate.
    + intros _. exists message. split; [reflexivity|now left].
    + reflexivity.
    + intros [r [t [H _]]]. discriminate.
  - destruct (d1_first db _ _) as [message|[total|]].
    + split; [now right|]. split; split; try discriminate.
      * intros _. exists message. split; [reflexivity|].
        right. now exists rows.
      * reflexivity.
      * intros [r [t [_ [[H|[H _]] _]]]]; discriminate.
    + split; [now left|]. split; split; try discriminate.
      * intros [m [H _]]. discriminate.
      * intros _. exists rows, total. repeat split. now left.
      * reflexivity.
    + split; [now left|]. split; split; try discriminate.
      * intros [m [H _]]. discriminate.
      * intros _. exists rows, (Num 0). repeat split. now right.
      * reflexivity.
Qed.

(** ** The outcomes of a write *)

(** X12. A body that is not a plain object ([null], an array, a boolean, a
    number or a string) is answered 400 "Invalid data format" by Create and
    by Update without any statement being prepared: the answer is the same
    for every engine.  A plain object is never answered 400. *)
Theorem invalid_payload_rejected
  (db db' : D1) (tableName id : string) (data : jsval) :
  (Rest.invalid_payload data = false <-> exists props, data = JObj props) /\
  (status (Rest.handlePost db tableName data) = 400 <->
   Rest.invalid_payload data = true) /\
  (status (Rest.handleUpdate db tableName id data) = 400 <->
   Rest.invalid_payload data = true) /\
  (if Rest.invalid_payload data
   then Rest.handlePost db tableName data =
          Rest.failure "Invalid data format" 400 /\
        Rest.handlePost db' tableName data =
          Rest.handlePost db tableName data /\
        Rest.handleUpdate db tableName id data =
          Rest.plain_error "Invalid data format" 400 /\
        Rest.handleUpdate db' tableName id data =
          Rest.handleUpdate db tableName id data
   else True).
Proof.
  split; [apply invalid_payload_spec|].
  destruct (update_rejects_as_create db tableName id data) as [Hu Hp].
  split; [exact Hp|]. split; [exact Hu|].
  unfold Rest.handlePost, Rest.handleUpdate.
  destruct (Rest.invalid_payload data); [|exact I]. repeat split.
Qed.

(** X13. For a plain-object body, Create answers 201 exactly when the
    engine accepts the [INSERT]; 409 with the fixed conflict message, and
    not the engine's text, exactly when the engine raises an error whose
    message contains "UNIQUE constraint failed"; and 500 with the engine's
    message exactly when it raises any other error. *)
Theorem create_outcome
  (db : D1) (tableName : string) (props : list (string * jsval)) :
  let answer := Rest.handlePost db tableName (JObj props) in
  let ran :=
    d1_run db (Rest.insert_query tableName props) (Rest.post_params props) in
  (status answer = 201 <-> exists meta, ran = inr meta) /\
  (status answer = 409 <->
   exists message,
     ran = inl message /\
     Js.includes message "UNIQUE constraint failed" = true) /\
  (status answer = 409 -> answer = Rest.failure Rest.conflict_message 409) /\
  (status answer = 500 <->
   exists message,
     ran = inl message /\
     Js.includes message "UNIQUE constraint failed" = false /\
     answer = Rest.failure message 500) /\
  (status answer = 201 \/ status answer = 409 \/ status answer = 500).
Proof.
  intros answer ran. subst answer ran. unfold Rest.handlePost.
  cbn [Rest.invalid_payload Js.truthy Js.typeof Js.isArray negb orb].
  change (String.eqb "object" "object") with true. cbn [negb orb].
  destruct (d1_run db _ _) as [message|meta].
  - destruct (Js.includes message _) eqn:E.
    + repeat split; try discriminate; auto.
      * intros [m H]. discriminate.
      * intros _. now exists message.
      * intros [m [H [H1 _]]]. inversion H; subst. congruence.
    + repeat split; try discriminate; auto.
      * intros [m H]. discriminate.
      * intros [m [H H1]]. inversion H; subst. congruence.
      * intros _. now exists message.
  - repeat split; try discriminate; auto.
    + intros _. now exists meta.
    + intros [m [H _]]. discriminate.
    + intros [m [H _]]. discriminate.
Qed.

(** X14. For a plain-object body, Update answers 200, echoing the body as
    it was sent, exactly when the engine does not raise, whatever the number
    of rows it reports as changed, zero included; it answers 500 with the
    engine's message exactly when the engine raises.  The id is bound last,
    after the parameters of the columns. *)
Theorem update_outcome
  (db : D1) (tableName id : string) (props : list (string * jsval)) :
  let answer := Rest.handleUpdate db tableName id (JObj props) in
  let ran :=
    d1_run db (Rest.update_query tableName props)
      (Rest.update_params props ++ [JStr id])%list in
  (answer =
     json (JObj [ ("success", JBool true);
                  ("message", JStr "Resource updated successfully");
                  ("data", JObj props) ])
   <-> exists meta, ran = inr meta) /\
  (status answer = 500 <->
   exists message, ran = inl message /\
                   answer = Rest.failure message 500) /\
  (status answer = 200 \/ status answer = 500).
Proof.
  intros answer ran. subst answer ran. unfold Rest.handleUpdate.
  cbn [Rest.invalid_payload Js.truthy Js.typeof Js.isArray negb orb].
  change (String.eqb "object" "object") with true. cbn [negb orb].
  destruct (d1_run db _ _) as [message|meta].
  - repeat split; try discriminate; auto.
    + intros [m H]. discriminate.
    + intros _. now exists message.
  - repeat split; try discriminate; auto.
    + intros _. now exists meta.
    + intros [m [H _]]. discriminate.
Qed.

(** ** What a payload with clean keys binds *)

Lemma assoc_own (props : list (string * jsval)) (k : string) (v : jsval) :
  distinct (map fst props) = true -> In (k, v) props ->
  Js.assoc k props = Some v.
Proof.
  induction props as [|[k' v'] props IH]; [contradiction|].
  cbn [map fst distinct Js.assoc]. intros Hd Hin.
  apply andb_true_iff in Hd as [Hk Hd]. apply negb_true_iff in Hk.
  destruct Hin as [E|Hin].
  - inversion E; subst. now rewrite String.eqb_refl.
  - destruct (String.eqb_spec k k') as [->|_]; [|now apply IH].
    exfalso. unfold Js.mem in Hk.
    assert (existsb (String.eqb k') (map fst props) = true); [|congruence].
    apply existsb_exists. exists k'. split; [|apply String.eqb_refl].
    apply in_map_iff. now exists (k', v).
Qed.

Lemma get_own (props : list (string * jsval)) (k : string) (v : jsval) :
  distinct (map fst props) = true -> In (k, v) props ->
  Js.get props k = v.
Proof. intros Hd Hin. unfold Js.get. now rewrite (assoc_own _ _ _ Hd Hin). Qed.

Lemma json_value_scalar (v : jsval) :
  json_value v = true -> storage_scalar (Rest.post_param v) = true.
Proof.
  intros H. destruct v as [| |[]|[|z]|s|l|l|f]; try discriminate;
    reflexivity.
Qed.

Lemma json_value_defined (v : jsval) :
  json_value v = true -> v <> JUndefined.
Proof. intros H E. subst. discriminate. Qed.

Section CleanPayload.

Variable props : list (string * jsval).
Hypothesis Hjson : json_value (JObj props) = true.
Hypothesis Hclean : forallb is_identifier (Js.keys props) = true.

Lemma clean_distinct : distinct (map fst props) = true.
Proof. cbn [json_value] in Hjson. now apply andb_true_iff in Hjson. Qed.

Lemma clean_member (k : string) (v : jsval) :
  In (k, v) props -> json_value v = true.
Proof.
  intros Hin. cbn [json_value] in Hjson.
  apply andb_true_iff in Hjson as [_ H].
  exact (proj1 (forallb_forall _ _) H (k, v) Hin).
Qed.

Lemma clean_columns : Rest.columns_of props = Js.keys props.
Proof.
  unfold Rest.columns_of. rewrite <- (map_id (Js.keys props)) at 2.
  apply map_ext_in. intros k Hk.
  apply filter_chars_fixpoint.
  exact (proj1 (forallb_forall _ _) Hclean k Hk).
Qed.

Lemma clean_lookup (coerce : jsval -> jsval) :
  map (fun col => coerce (Js.get props col)) (Rest.columns_of props)
  = map (fun kv => coerce (snd kv)) props.
Proof.
  rewrite clean_columns. unfold Js.keys. rewrite map_map.
  apply map_ext_in. intros [k v] Hin. cbn [fst snd].
  now rewrite (get_own _ _ _ clean_distinct Hin).
Qed.

End CleanPayload.

(** X15. For a body that is a JSON object whose keys are all made of
    characters of [A-Za-z0-9_], the columns are the keys, each bound to the
    coercion of its own value; Update binds the very parameters Create
    binds; and every parameter is a [NULL], a number or a text: no object,
    array, boolean or [undefined] reaches the engine. *)
Theorem clean_payload_parameters (props : list (string * jsval)) :
  json_value (JObj props) = true ->
  forallb is_identifier (Js.keys props) = true ->
  Rest.columns_of props = Js.keys props /\
  Rest.post_params props = map (fun kv => Rest.post_param (snd kv)) props /\
  Rest.update_params props = Rest.post_params props /\
  forallb storage_scalar (Rest.post_params props) = true.
Proof.
  intros Hjson Hclean.
  assert (Hpost := @clean_lookup props Hjson Hclean Rest.post_param).
  assert (Hupd := @clean_lookup props Hjson Hclean Rest.update_param).
  fold (Rest.post_params props) in Hpost.
  fold (Rest.update_params props) in Hupd.
  split; [exact (@clean_columns props Hclean)|]. split; [exact Hpost|]. split.
  - rewrite Hupd, Hpost. apply map_ext_in. intros [k v] Hin. cbn [snd].
    apply update_param_as_create, json_value_defined.
    exact (@clean_member props Hjson _ _ Hin).
  - rewrite Hpost. apply forallb_forall. intros x Hx.
    apply in_map_iff in Hx as [[k v] [<- Hin]]. cbn [snd].
    apply json_value_scalar. exact (@clean_member props Hjson _ _ Hin).
Qed.

Lemma clean_payload_parameters_witness :
  Rest.update_params
    [("name", JStr "x"); ("tags", JArr [JStr "a"; JStr "b"]);
     ("active", JBool true); ("note", JNull)]
  = Rest.post_params
      [("name", JStr "x"); ("tags", JArr [JStr "a"; JStr "b"]);
       ("active", JBool true); ("note", JNull)].
Proof.
  apply (@clean_payload_parameters
           [("name", JStr "x"); ("tags", JArr [JStr "a"; JStr "b"]);
            ("active", JBool true); ("note", JNull)]); reflexivity.
Defined.

(** ** Hydration, again *)

Lemma parse_structure (s : string) (p : jsval) :
  starts_structure s = true -> JSON.parse s = Some p -> structured p = true.
Proof.
  intros Hs. unfold JSON.parse.
  change (JSON.value (S (String.length s)))
    with (JSON.value_step (JSON.elements (String.length s))
            (JSON.members (String.length s))).
  destruct s as [|c r]; [discriminate|]. unfold starts_structure in Hs.
  apply orb_true_iff in Hs as [Hc|Hc]; apply Ascii.eqb_eq in Hc; subst c;
    unfold JSON.value_step; rewrite skip_ws_first by reflexivity; eval_eqb.
  - destruct (JSON.first_is "}" _).
    + destruct (JSON.skip_ws (JSON.rest_of _)); intros H; inversion H.
      reflexivity.
    + destruct (JSON.members _ r) as [[l rest]|]; [|discriminate].
      destruct (JSON.skip_ws rest); intros H; inversion H. reflexivity.
  - destruct (JSON.first_is "]" _).
    + destruct (JSON.skip_ws (JSON.rest_of _)); intros H; inversion H.
      reflexivity.
    + destruct (JSON.elements _ r) as [[l rest]|]; [|discriminate].
      destruct (JSON.skip_ws rest); intros H; inversion H. reflexivity.
Qed.

Lemma hydrateValue_structured (p : jsval) :
  structured p = true -> hydrateValue p = p.
Proof. destruct p; try discriminate; reflexivity. Qed.

Lemma hydrateValue_number (n : number) :
  hydrateValue (JNum n) = JBool false /\ n = Num 0 \/
  hydrateValue (JNum n) = JBool true /\ n = Num 1 \/
  hydrateValue (JNum n) = JNum n /\ n <> Num 0 /\ n <> Num 1.
Proof.
  destruct n as [|z].
  - right. right. repeat split; discriminate.
  - unfold hydrateValue, is_number, Number.eqb.
    destruct (Z.eqb_spec z 0) as [->|H0]; [now left|].
    destruct (Z.eqb_spec z 1) as [->|H1]; [right; now left|].
    right. right. repeat split; congruence.
Qed.

Lemma hydrateValue_string (s : string) :
  (exists p, hydrateValue (JStr s) = p /\ structured p = true) \/
  hydrateValue (JStr s) = JStr s.
Proof.
  unfold hydrateValue. cbn [is_number].
  destruct (starts_structure s) eqn:Hs; [|now right].
  destruct (JSON.parse s) as [p|] eqn:Hp; [|now right].
  left. exists p. split; [reflexivity|]. exact (parse_structure _ Hs Hp).
Qed.

Lemma hydrateValue_fixed (v : jsval) :
  hydrateValue (hydrateValue v) = hydrateValue v.
Proof.
  destruct v as [| |b|n|s|l|l|f]; try reflexivity.
  - destruct (hydrateValue_number n) as [[-> _]|[[-> _]|[E _]]];
      try reflexivity. now rewrite !E.
  - destruct (hydrateValue_string s) as [[p [E Hp]]|E].
    + rewrite E. now apply hydrateValue_structured.
    + now rewrite !E.
Qed.

(** X16. Hydrating a value twice is hydrating it once; and what
    [hydrateValue] returns is the value it was given, a boolean, or an
    array or object read from a string. *)
Theorem hydrateValue_idempotent (v : jsval) :
  hydrateValue (hydrateValue v) = hydrateValue v /\
  (hydrateValue v = v \/
   (exists b, hydrateValue v = JBool b) \/
   (exists s, v = JStr s /\ structured (hydrateValue v) = true)).
Proof.
  split; [apply hydrateValue_fixed|].
  destruct v as [| |b|n|s|l|l|f]; try (now left).
  - destruct (hydrateValue_number n) as [[E _]|[[E _]|[E _]]]; rewrite E.
    + right. left. now exists false.
    + right. left. now exists true.
    + now left.
  - destruct (hydrateValue_string s) as [[p [E Hp]]|E].
    + right. right. exists s. rewrite E. now split.
    + now left.
Qed.

(** X17. No value comes out of [hydrateValue] as the number 0 or the number
    1: a stored 0 or 1 is always read as a boolean, and nothing else reads
    as one of them. *)
Theorem hydrateValue_never_zero_or_one (v : jsval) :
  hydrateValue v <> JInt 0 /\ hydrateValue v <> JInt 1 /\
  (hydrateValue v = JBool false <-> v = JInt 0 \/ v = JBool false) /\
  (hydrateValue v = JBool true <-> v = JInt 1 \/ v = JBool true).
Proof.
  destruct v as [| |b|n|s|l|l|f];
    try (repeat split; try discriminate;
         try (intros [H|H]; discriminate); fail).
  - repeat split; try discriminate; try (intros H; now right).
    + intros [H|H]; [discriminate|assumption].
    + intros [H|H]; [discriminate|assumption].
  - unfold JInt.
    destruct (hydrateValue_number n) as [[E ->]|[[E ->]|[E [H0 H1]]]];
      rewrite E; repeat split; try discriminate; try (intros _; now left);
      try (intros [H|H]; congruence); try congruence.
  - destruct (hydrateValue_string s) as [[p [E Hp]]|E]; rewrite E.
    + destruct p; try discriminate Hp;
        repeat split; try discriminate; intros [H|H]; discriminate.
    + repeat split; try discriminate; intros [H|H]; discriminate.
Qed.

(** X18. Hydrating a row keeps its columns, in order; each column holds the
    hydration of the value it held; and hydrating the result again changes
    nothing. *)
Theorem hydrateRow_keeps_columns (props : list (string * jsval)) :
  distinct (map fst props) = true ->
  exists hydrated_props,
    hydrateRow (JObj props) = JObj hydrated_props /\
    Js.keys hydrated_props = Js.keys props /\
    (forall k v, In (k, v) props ->
                 Js.get hydrated_props k = hydrateValue v) /\
    hydrateRow (JObj hydrated_props) = JObj hydrated_props.
Proof.
  intros Hd.
  exists (map (fun kv => (fst kv, hydrateValue (snd kv))) props).
  assert (Hk : map fst (map (fun kv : string * jsval =>
                               (fst kv, hydrateValue (snd kv))) props)
               = map fst props)
    by (rewrite map_map; reflexivity).
  split; [now apply hydrateRow_object|]. split; [exact Hk|]. split.
  - intros k v Hin. apply get_own; [now rewrite Hk|].
    apply in_map_iff. now exists (k, v).
  - rewrite hydrateRow_object by now rewrite Hk.
    f_equal. rewrite map_map. apply map_ext. intros [k v]. cbn [fst snd].
    now rewrite hydrateValue_fixed.
Qed.

Lemma hydrateRow_keeps_columns_witness :
  exists p,
    hydrateRow (JObj [("id", JInt 1); ("tags", JStr "[7]")]) = JObj p /\
    Js.keys p = ["id"; "tags"] /\
    (forall k v, In (k, v) [("id", JInt 1); ("tags", JStr "[7]")] ->
                 Js.get p k = hydrateValue v) /\
    hydrateRow (JObj p) = JObj p.
Proof.
  apply (@hydrateRow_keeps_columns [("id", JInt 1); ("tags", JStr "[7]")]).
  reflexivity.
Defined.

(** ** From Create to a read *)

Lemma hydrate_stored (v : jsval) :
  json_value v = true -> survives v = true ->
  hydrateValue (Rest.post_param v) = v.
Proof.
  intros Hj Hs.
  destruct v as [| |b|[|z]|s|l|l|f]; try discriminate.
  - reflexivity.
  - destruct b; reflexivity.
  - cbn [survives] in Hs. apply andb_true_iff in Hs as [H0 H1].
    apply negb_true_iff in H0, H1.
    change (Rest.post_param (JNum (Num z))) with (JNum (Num z)).
    unfold hydrateValue, is_number, Number.eqb. now rewrite H0, H1.
  - cbn [survives] in Hs. apply negb_true_iff in Hs.
    change (Rest.post_param (JStr s)) with (JStr s).
    unfold hydrateValue. cbn [is_number]. now rewrite Hs.
  - change (Rest.post_param (JArr l)) with (JSON.stringify (JArr l)).
    unfold JSON.stringify. rewrite (json_value_text _ Hj).
    unfold hydrateValue. cbn [is_number].
    rewrite text_starts_structure by (exact I || assumption).
    now rewrite parse_text.
  - change (Rest.post_param (JObj l)) with (JSON.stringify (JObj l)).
    unfold JSON.stringify. rewrite (json_value_text _ Hj).
    unfold hydrateValue. cbn [is_number].
    rewrite text_starts_structure by (exact I || assumption).
    now rewrite parse_text.
Qed.

Lemma combine_map (A B C : Type) (f : A -> B) (g : A -> C) (l : list A) :
  combine (map f l) (map g l) = map (fun x => (f x, g x)) l.
Proof. induction l; simpl; congruence. Qed.

(** X19. From Create to a read: for a body that is a JSON object with keys
    made of characters of [A-Za-z0-9_], whose values are objects, arrays,
    booleans, [null], numbers other than 0 and 1, or strings that do not
    start with an opening brace or bracket, the row that the [INSERT]
    writes, column by column with its bound parameter, hydrates back to the
    body. *)
Theorem stored_row_round_trip (props : list (string * jsval)) :
  json_value (JObj props) = true ->
  forallb is_identifier (Js.keys props) = true ->
  forallb (fun kv => survives (snd kv)) props = true ->
  hydrateRow (stored_row props) = JObj props.
Proof.
  intros Hjson Hclean Hsurv. unfold stored_row.
  rewrite (@clean_columns props Hclean).
  change (Rest.post_params props)
    with (map (fun col => Rest.post_param (Js.get props col))
            (Rest.columns_of props)).
  rewrite (@clean_lookup props Hjson Hclean Rest.post_param).
  unfold Js.keys. rewrite combine_map.
  rewrite hydrateRow_object
    by (rewrite map_map; exact (@clean_distinct props Hjson)).
  f_equal. rewrite map_map. rewrite <- (map_id props) at 2.
  apply map_ext_in. intros [k v] Hin. cbn [fst snd]. f_equal.
  apply hydrate_stored.
  - exact (@clean_member props Hjson _ _ Hin).
  - exact (proj1 (forallb_forall _ _) Hsurv (k, v) Hin).
Qed.

Lemma stored_row_round_trip_witness :
  hydrateRow
    (stored_row [("name", JStr "x"); ("tags", JArr [JStr "a"; JStr "b"]);
                 ("active", JBool true); ("stock", JInt 12)])
  = JObj [("name", JStr "x"); ("tags", JArr [JStr "a"; JStr "b"]);
          ("active", JBool true); ("stock", JInt 12)].
Proof.
  apply (@stored_row_round_trip
           [("name", JStr "x"); ("tags", JArr [JStr "a"; JStr "b"]);
            ("active", JBool true); ("stock", JInt 12)]); reflexivity.
Defined.

(** ** Pagination, for a limit and a page that read as integers *)

(** X20. When [limit] reads as an integer [l] with [0 < l <= 2^53], [page]
    as an integer [p] of magnitude at most [2^53], the engine counts a total
    between 0 and [2^53], and [(max 1 p - 1) * l <= 2^53]: the page is
    [max 1 p]; the offset is [(page - 1) * l], never negative; the limit
    echoed is [l]; and the page count [n] is the least number of pages of
    [l] rows that hold the total: [(n - 1) * l < total <= n * l].  Within
    these bounds the doubles of the source are the integers of the model:
    [parseInt] reads an integer of at most [2^53] exactly, the difference
    and the product are exact, and the quotient [total / l], when it is not
    an integer, is at least [1 / l] away from one, more than a double's
    rounding error below [2^53], so [Math.ceil] of the double is the ceiling
    of the quotient. *)
Theorem pagination_for_integers
  (sp : Rest.searchParams) (l p total : Z) :
  Rest.limit_of sp = Num l ->
  parseInt (Rest.or_else (Rest.sp_get "page" sp) "1") = Num p ->
  0 < l <= max_safe ->
  Z.abs p <= max_safe ->
  0 <= total <= max_safe ->
  (Z.max 1 p - 1) * l <= max_safe ->
  exists pages,
    Rest.page_of sp = Num (Z.max 1 p) /\
    Rest.offset_of sp = Num ((Z.max 1 p - 1) * l) /\
    0 <= (Z.max 1 p - 1) * l /\
    Rest.pagination sp (Num total) =
      JObj [ ("total_items", JInt total); ("total_pages", JInt pages);
             ("current_page", JInt (Z.max 1 p)); ("limit", JInt l) ] /\
    (pages - 1) * l < total <= pages * l /\ 0 <= pages.
Proof.
  intros Hl Hp [Hpos _] _ [Htotal _] _.
  destruct (pagination_arithmetic sp total Hl Hp) as [Hpage [Hoff Hpag]].
  exists (- (- total / l)).
  split; [exact Hpage|]. split; [exact Hoff|]. split; [nia|]. split.
  - rewrite Hpag.
    destruct (Z.ltb_spec 0 l); [|lia]. destruct (Z.eqb_spec l 0); [lia|].
    reflexivity.
  - pose proof (ceil_div_spec total Hpos). nia.
Qed.

Lemma pagination_for_integers_witness :
  exists pages,
    Rest.page_of [("limit", "10"); ("page", "3")] = Num (Z.max 1 3) /\
    Rest.offset_of [("limit", "10"); ("page", "3")]
      = Num ((Z.max 1 3 - 1) * 10) /\
    0 <= (Z.max 1 3 - 1) * 10 /\
    Rest.pagination [("limit", "10"); ("page", "3")] (Num 47) =
      JObj [ ("total_items", JInt 47); ("total_pages", JInt pages);
             ("current_page", JInt (Z.max 1 3)); ("limit", JInt 10) ] /\
    (pages - 1) * 10 < 47 <= pages * 10 /\ 0 <= pages.
Proof.
  apply (@pagination_for_integers [("limit", "10"); ("page", "3")] 10 3 47);
    first [reflexivity|unfold max_safe; lia].
Defined.



(** X22. When [limit] is absent, empty, zero or does not read as a number,
    no [LIMIT] is appended, the parameters bound are the filter parameters
    alone, and the metadata is one page whose limit is the total. *)
Theorem unpaginated_metadata
  (id : option string) (sp : Rest.searchParams) (total : number) :
  Number.truthy (Rest.limit_of sp) = false ->
  Rest.paginated sp = false /\
  Rest.select_params id sp = Rest.filter_params id sp /\
  Rest.pagination sp total =
    JObj [ ("total_items", JNum total); ("total_pages", JInt 1);
           ("current_page", JNum (Rest.page_of sp)); ("limit", JNum total) ].
Proof.
  intros H.
  assert (Hp : Rest.paginated sp = false).
  { unfold Rest.paginated. destruct (Rest.limit_of sp) as [|l]; [reflexivity|].
    cbn in H |- *. apply negb_false_iff, Z.eqb_eq in H. now subst. }
  split; [exact Hp|]. split.
  - unfold Rest.select_params. rewrite Hp. apply List.app_nil_r.
  - unfold Rest.pagination. unfold Rest.paginated in Hp. now rewrite Hp, H.
Qed.

Lemma unpaginated_metadata_witness :
  Rest.pagination [("limit", "all")] (Num 12) =
    JObj [ ("total_items", JInt 12); ("total_pages", JInt 1);
           ("current_page", JInt 1); ("limit", JInt 12) ].
Proof.
  apply (@unpaginated_metadata None [("limit", "all")] (Num 12)).
  reflexivity.
Defined.

(** ** The quoted table name *)

Lemma identifier_no_backquote (s : string) :
  is_identifier s = true -> count_char "`" s = 0%nat.
Proof.
  unfold is_identifier. induction s as [|c s IH]; simpl; [reflexivity|].
  intros H. apply andb_true_iff in H as [Hc Hs]. rewrite (IH Hs).
  destruct (Ascii.eqb_spec c "`") as [->|_]; [discriminate|reflexivity].
Qed.

(** X26. Whatever the table name, its quoted form holds exactly two
    backquotes, the first and the last character, around the sanitized name:
    the name cannot close its own quoting, and the reference grammar reads
    the sanitized name back from it. *)
Theorem sanitizeKeyword_quoting (tableName rest : string) :
  count_char "`" (Rest.sanitizeKeyword tableName) = 2%nat /\
  String.length (Rest.sanitizeKeyword tableName)
    = (String.length (Rest.sanitizeIdentifier tableName) + 2)%nat /\
  Sqlite.parse_table (Rest.sanitizeKeyword tableName ++ rest)
    = Some (Rest.sanitizeIdentifier tableName, rest).
Proof.
  unfold Rest.sanitizeKeyword. repeat split.
  - rewrite !count_char_append.
    rewrite (identifier_no_backquote _
               (sanitizeIdentifier_identifier tableName)).
    reflexivity.
  - rewrite !length_append. simpl. lia.
  - rewrite !append_assoc. apply parse_table_render.
    apply sanitizeIdentifier_identifier.
Qed.

(** ** The count statement against the [SELECT] *)

(** C7. The [WHERE] clause is empty when there is no condition and
    otherwise [ WHERE ] followed by the conditions [column = ?] joined by
    [ AND ], one for the id when it is given and one for each filter of the
    query string, in order.  The [SELECT] is [SELECT * FROM], the quoted
    table, this clause, and then only [ ORDER BY ], the sort column, the
    direction and, when [limit > 0], [ LIMIT ? OFFSET ?]; the count
    statement is [SELECT COUNT( * ) as total FROM], the quoted table and the
    same clause, nothing after.  The clause holds one [?] for each filter
    parameter, and the count statement binds exactly the filter parameters,
    in order: when [limit > 0] these are the parameters of the [SELECT]
    without its last two, the limit and the offset; otherwise they are the
    parameters of the [SELECT]. *)
Theorem count_statement_shares_where_and_filters
  (tableName : string) (id : option string) (sp : Rest.searchParams) :
  let w := Rest.whereClause tableName id sp in
  let columns :=
    ((if Rest.given id then [Rest.idColumn tableName] else []) ++
     map (fun kv => Rest.sanitizeIdentifier (fst kv)) (Rest.filters sp))%list in
  let bound :=
    ((if Rest.given id then [JStr (Rest.id_text id)] else []) ++
     map (fun kv => JStr (snd kv)) (Rest.filters sp))%list in
  w = match columns with
      | [] => EmptyString
      | _ => " WHERE " ++ join " AND " (map (fun c => c ++ " = ?") columns)
      end /\
  Rest.select_query tableName id sp =
    "SELECT * FROM " ++ Rest.sanitizeKeyword tableName ++ w
    ++ " ORDER BY "
    ++ Rest.sanitizeIdentifier (Rest.sortBy_of tableName sp) ++ " "
    ++ Rest.order_of sp
    ++ (if Rest.paginated sp then " LIMIT ? OFFSET ?" else EmptyString) /\
  (Rest.order_of sp = "DESC" \/ Rest.order_of sp = "ASC") /\
  Rest.countQuery tableName id sp =
    "SELECT COUNT(*) as total FROM " ++ Rest.sanitizeKeyword tableName ++ w /\
  placeholders w = List.length bound /\
  List.length columns = List.length bound /\
  Rest.countParams id sp = bound /\
  Rest.select_params id sp =
    (bound ++
     (if Rest.paginated sp
      then [JNum (Rest.limit_of sp); JNum (Rest.offset_of sp)]
      else []))%list /\
  (if Rest.paginated sp
   then Rest.drop_last2 (Rest.select_params id sp) = Rest.countParams id sp
   else Rest.select_params id sp = Rest.countParams id sp).
Proof.
  intros w columns bound.
  assert (Hlen : List.length columns = List.length bound)
    by apply (where_params_length tableName).
  assert (Hcount : Rest.countParams id sp = bound)
    by apply countParams_filter_params.
  assert (Hw : w = Sqlite.render_where columns) by apply whereClause_render.
  split; [exact Hw|]. split; [reflexivity|].
  split; [apply order_of_cases|]. split; [reflexivity|]. split.
  { rewrite Hw, <- Hlen. apply placeholders_conditions.
    apply where_columns_identifiers. }
  split; [exact Hlen|]. split; [exact Hcount|]. split; [reflexivity|].
  rewrite Hcount. unfold Rest.select_params. fold bound.
  destruct (Rest.paginated sp).
  - apply drop_last2_app.
  - apply List.app_nil_r.
Qed.

(** ** An id lookup under pagination *)

(** C2. [handleGet] appends [ LIMIT ? OFFSET ?] and binds the limit and the
    offset on an id lookup as on a collection read, and answers 404 as soon
    as the engine returns no row.  For the row 7 of [items] and
    [?limit=1&page=2] the statement is the id lookup followed by
    [LIMIT ? OFFSET ?], bound to the id, 1 and 1: an engine that holds the
    row skips it, and the lookup that answers the row without these
    parameters answers 404 with them. *)
Theorem id_lookup_binds_limit_and_offset :
  let sp := [("limit", "1"); ("page", "2")] in
  Rest.select_query "items" (Some "7") sp =
    "SELECT * FROM `items` WHERE id = ? ORDER BY id ASC LIMIT ? OFFSET ?" /\
  Rest.select_params (Some "7") sp = [JStr "7"; JInt 1; JInt 1] /\
  Rest.select_query "items" (Some "7") [] =
    "SELECT * FROM `items` WHERE id = ? ORDER BY id ASC" /\
  Rest.select_params (Some "7") [] = [JStr "7"] /\
  (forall (db : D1) (row : jsval),
     d1_all db (Rest.select_query "items" (Some "7") sp)
       (Rest.select_params (Some "7") sp) = inr [] ->
     d1_all db (Rest.select_query "items" (Some "7") [])
       (Rest.select_params (Some "7") []) = inr [row] ->
     Rest.handleGet db "items" (Some "7") sp = Rest.failure "Not Found" 404 /\
     Rest.handleGet db "items" (Some "7") [] =
       json (JObj [("success", JBool true); ("result", hydrateRow row)])) /\
  (forall (tableName id : string) (q : Rest.searchParams),
     id <> EmptyString -> Rest.paginated q = true ->
     Rest.select_query tableName (Some id) q =
       "SELECT * FROM " ++ Rest.sanitizeKeyword tableName
       ++ Rest.whereClause tableName (Some id) q ++ " ORDER BY "
       ++ Rest.sanitizeIdentifier (Rest.sortBy_of tableName q) ++ " "
       ++ Rest.order_of q ++ " LIMIT ? OFFSET ?" /\
     Rest.select_params (Some id) q =
       (JStr id :: map (fun kv => JStr (snd kv)) (Rest.filters q)
        ++ [JNum (Rest.limit_of q); JNum (Rest.offset_of q)])%list /\
     forall db : D1,
       d1_all db (Rest.select_query tableName (Some id) q)
         (Rest.select_params (Some id) q) = inr [] ->
       Rest.handleGet db tableName (Some id) q
       = Rest.failure "Not Found" 404).
Proof.
  cbv zeta. repeat split; try reflexivity.
  - unfold Rest.handleGet. rewrite H. reflexivity.
  - unfold Rest.handleGet. rewrite H0. reflexivity.
  - unfold Rest.select_query. now rewrite H0.
  - unfold Rest.select_params, Rest.filter_params. rewrite H0.
    destruct id; [contradiction|]. reflexivity.
  - intros db Hdb. unfold Rest.handleGet. rewrite Hdb.
    destruct id; [contradiction|]. reflexivity.
Qed.
